(** * Catalyst NGD wrappers: request validation, dispatch and response shaping

    A shallow embedding of [src/schemas.py], [src/utils.py] and the
    request/response plumbing of [src/lambda_app.py] and
    [src/function_app.py].

    Python objects are modelled as follows:
    - immutable values (None, bool, int, str) are [pyval] constructors;
    - lists are [VList] values (no list is mutated by the modelled code);
    - dicts are mutable objects living in a [heap]; a [VDict l] value is a
      reference to the dict stored at location [l], so aliasing between an
      event and the request object built from it is visible;
    - dicts that the code builds fresh and never shares (the result of
      [schema.load], the downstream result, error bodies) are plain
      [gmap string pyval] values.
    Code runs in a state + exception monad [M] over the heap. *)

From Stdlib Require Import String Ascii ZArith Bool List.
From stdpp Require Import base gmap strings list pretty.
Import ListNotations.
Open Scope string_scope.

(* ------------------------------------------------------------------ *)
(** ** Python values, exceptions and the state/exception monad *)

Set Warnings "-register-all".

Definition loc := positive.

Inductive pyval :=
| VNone
| VBool (b : bool)
| VInt (z : Z)
| VStr (s : string)
| VList (xs : list pyval)
| VDict (l : loc).

(** A fresh, unshared dict. *)
Abbreviation pydict := (gmap string pyval).

(** The mutable dict objects. *)
Abbreviation heap := (gmap loc pydict).

(** An exception: its class name and [str(e)]. *)
Record exn := mk_exn { exn_class : string; exn_str : string }.

Inductive outcome (A : Type) :=
| Ret (a : A)
| Raise (e : exn).
Arguments Ret {A} a.
Arguments Raise {A} e.

Definition M (A : Type) : Type := heap -> heap * outcome A.

Global Instance M_ret : MRet M := fun A a h => (h, Ret a).
Global Instance M_bind : MBind M := fun A B k m h =>
  match m h with
  | (h', Ret a) => k a h'
  | (h', Raise e) => (h', Raise e)
  end.

Definition raise {A} (e : exn) : M A := fun h => (h, Raise e).

(** [try: body except Exception as e: handler(e)] *)
Definition try_except {A} (body : M A) (handler : exn -> M A) : M A := fun h =>
  match body h with
  | (h', Ret a) => (h', Ret a)
  | (h', Raise e) => handler e h'
  end.

Definition attribute_error (what : string) : exn :=
  mk_exn "AttributeError" ("'" ++ what ++ "' object has no attribute 'get'").

Definition type_name (v : pyval) : string :=
  match v with
  | VNone => "NoneType" | VBool _ => "bool" | VInt _ => "int"
  | VStr _ => "str" | VList _ => "list" | VDict _ => "dict"
  end.

Definition dict_get_default (m : pydict) (k : string) (default : pyval) : pyval :=
  match m !! k with Some v => v | None => default end.

(** [d.get(k, default)] on an arbitrary value [d]. *)
Definition py_get (d : pyval) (k : string) (default : pyval) : M pyval := fun h =>
  match d with
  | VDict l =>
      match h !! l with
      | Some m => (h, Ret (dict_get_default m k default))
      | None => (h, Raise (mk_exn "MemoryError" "dangling reference"))
      end
  | _ => (h, Raise (attribute_error (type_name d)))
  end.

(** The contents of a dict object ([TypeError] for anything else). *)
Definition py_dict_contents (d : pyval) : M pydict := fun h =>
  match d with
  | VDict l =>
      match h !! l with
      | Some m => (h, Ret m)
      | None => (h, Raise (mk_exn "MemoryError" "dangling reference"))
      end
  | _ => (h, Raise (mk_exn "TypeError" ("object of type '" ++ type_name d ++ "' has no len()")))
  end.

(** [d[k] = v] on a dict object. *)
Definition py_setitem (d : pyval) (k : string) (v : pyval) : M unit := fun h =>
  match d with
  | VDict l =>
      match h !! l with
      | Some m => (<[l := <[k := v]> m]> h, Ret tt)
      | None => (h, Raise (mk_exn "MemoryError" "dangling reference"))
      end
  | _ => (h, Raise (mk_exn "TypeError" ("'" ++ type_name d ++ "' object does not support item assignment")))
  end.

(** Python truthiness. *)
Definition truthy (v : pyval) : bool :=
  match v with
  | VNone => false
  | VBool b => b
  | VInt z => negb (Z.eqb z 0)
  | VStr s => negb (String.eqb s "")
  | VList xs => negb (Nat.eqb (List.length xs) 0)
  | VDict _ => true
  end.

(* ------------------------------------------------------------------ *)
(** ** String operations used by the code *)

(** [s.split(c)] for a one-character separator. *)
Fixpoint str_split (c : ascii) (s : string) : list string :=
  match s with
  | EmptyString => [""]
  | String x r =>
      let parts := str_split c r in
      if Ascii.eqb x c then "" :: parts
      else match parts with
           | p :: ps => String x p :: ps
           | [] => [String x ""]
           end
  end.

(** [s.replace(a, b)] for one-character [a] and [b]. *)
Fixpoint str_replace_char (a b : ascii) (s : string) : string :=
  match s with
  | EmptyString => EmptyString
  | String x r => String (if Ascii.eqb x a then b else x) (str_replace_char a b r)
  end.

(** [sep.join(xs)] *)
Fixpoint str_join (sep : string) (xs : list string) : string :=
  match xs with
  | [] => ""
  | [x] => x
  | x :: xs' => x ++ sep ++ str_join sep xs'
  end.

(* ------------------------------------------------------------------ *)
(** ** Marshmallow fields and the schema classes of [schemas.py] *)

Inductive fkind :=
| FString
| FInteger
| FBoolean
| FList (inner : fkind).

(** A declared field: its [data_key] (the query-string key, when it differs
    from the attribute name), its type and whether it is [required]. *)
Record field := mk_field {
  data_key : option string;
  kind : fkind;
  required : bool
}.

(** The schema classes. [Schema_] is marshmallow's [Schema] base, which
    declares no fields (its own bases [SchemaABC] and [object] declare none
    either and are left out of the class graph). *)
Inductive cls :=
| Schema_
| LatestCollectionsSchema
| CatalystBaseSchema
| AbstractHierarchicalSchema
| LimitSchema
| GeomSchema
| ColSchema
| LimitGeomSchema
| LimitColSchema
| GeomColSchema
| LimitGeomColSchema.

Global Instance cls_eq_dec : EqDecision cls.
Proof. solve_decision. Defined.

(** The bases listed in each [class] statement. *)
Definition bases (c : cls) : list cls :=
  match c with
  | Schema_ => []
  | LatestCollectionsSchema => [Schema_]
  | CatalystBaseSchema => [Schema_]
  | AbstractHierarchicalSchema => [CatalystBaseSchema]
  | LimitSchema => [CatalystBaseSchema]
  | GeomSchema => [AbstractHierarchicalSchema]
  | ColSchema => [AbstractHierarchicalSchema]
  | LimitGeomSchema => [LimitSchema; GeomSchema]
  | LimitColSchema => [LimitSchema; ColSchema]
  | GeomColSchema => [GeomSchema; ColSchema]
  | LimitGeomColSchema => [LimitSchema; GeomSchema; ColSchema]
  end.

(** The fields declared in each class body, in source order. *)
Definition own_fields (c : cls) : list (string * field) :=
  match c with
  | LatestCollectionsSchema =>
      [("flag_recent_updates", mk_field (Some "flag-recent-updates") FBoolean false);
       ("recent_update_days", mk_field (Some "recent-update-days") FInteger false)]
  | CatalystBaseSchema =>
      [("wkt", mk_field None FString false);
       ("use_latest_collection", mk_field (Some "use-latest-collection") FBoolean false)]
  | AbstractHierarchicalSchema =>
      [("hierarchical_output", mk_field (Some "hierarchical-output") FBoolean false)]
  | LimitSchema =>
      [("request_limit", mk_field (Some "request-limit") FInteger false)]
  | ColSchema =>
      [("collection", mk_field None (FList FString) true)]
  | _ => []
  end.

(** Python's C3 linearisation. [merge] picks, in order, the first head that
    occurs in no tail; [None] is the [TypeError] of an inconsistent
    hierarchy (or exhausted fuel). *)
Definition tails_avoid (c : cls) (seqs : list (list cls)) : bool :=
  forallb (fun s => negb (bool_decide (c ∈ tail s))) seqs.

Fixpoint c3_candidate (heads : list (list cls)) (seqs : list (list cls)) : option cls :=
  match heads with
  | [] => None
  | [] :: hs => c3_candidate hs seqs
  | (c :: _) :: hs => if tails_avoid c seqs then Some c else c3_candidate hs seqs
  end.

Definition drop_head (c : cls) (s : list cls) : list cls :=
  match s with
  | c' :: r => if bool_decide (c = c') then r else s
  | [] => []
  end.

Fixpoint c3_merge (fuel : nat) (seqs : list (list cls)) : option (list cls) :=
  match fuel with
  | O => None
  | S fuel' =>
      let seqs := filter (fun s => negb (bool_decide (s = []))) seqs in
      match seqs with
      | [] => Some []
      | _ =>
          match c3_candidate seqs seqs with
          | None => None
          | Some c =>
              match c3_merge fuel' (map (drop_head c) seqs) with
              | Some r => Some (c :: r)
              | None => None
              end
          end
      end
  end.

Fixpoint mro_fuel (fuel : nat) (c : cls) : option (list cls) :=
  match fuel with
  | O => None
  | S fuel' =>
      match mapM (mro_fuel fuel') (bases c) with
      | Some ms => match c3_merge 64 (ms ++ [bases c]) with
                   | Some r => Some (c :: r)
                   | None => None
                   end
      | None => None
      end
  end.

Definition class_depth := 8%nat.

Definition mro (c : cls) : option (list cls) := mro_fuel class_depth c.

(** [dict(pairs)]: a key keeps the position of its first occurrence and
    the value of its last one. *)
Fixpoint dict_insert_pair (acc : list (string * field)) (k : string) (v : field)
  : list (string * field) :=
  match acc with
  | [] => [(k, v)]
  | (k', v') :: r =>
      if String.eqb k k' then (k, v) :: r else (k', v') :: dict_insert_pair r k v
  end.

Definition dict_of_pairs (ps : list (string * field)) : list (string * field) :=
  fold_left (fun acc '(k, v) => dict_insert_pair acc k v) ps [].

(** [SchemaMeta.__new__]: [_declared_fields] of a class is
    [dict(inherited_fields + cls_fields)] where [inherited_fields]
    concatenates the [_declared_fields] of the classes of its MRO in reverse
    order, the class itself excluded ([_get_fields_by_mro]). *)
Fixpoint declared_fields_fuel (fuel : nat) (c : cls) : option (list (string * field)) :=
  match fuel with
  | O => None
  | S fuel' =>
      match mro c with
      | Some (_ :: ancestors) =>
          match mapM (declared_fields_fuel fuel') (rev ancestors) with
          | Some inherited => Some (dict_of_pairs (concat inherited ++ own_fields c))
          | None => None
          end
      | _ => None
      end
  end.

Definition declared_fields (c : cls) : option (list (string * field)) :=
  declared_fields_fuel class_depth c.

(** [schema.fields] of an instance: the declared fields, in declaration
    order (marshmallow's [OrderedSet] of field names). *)
Definition schema_fields (c : cls) : list (string * field) :=
  match declared_fields c with Some fs => fs | None => [] end.

Definition field_names (c : cls) : list string := map fst (schema_fields c).

(** [isinstance(schema, ColSchema)] *)
Definition is_multi_collection (c : cls) : bool :=
  match mro c with Some m => bool_decide (ColSchema ∈ m) | None => false end.

(* ------------------------------------------------------------------ *)
(** ** Field deserialisation (marshmallow [fields.*._deserialize]) *)

Definition is_digit (c : ascii) : bool :=
  let n := nat_of_ascii c in (48 <=? n)%nat && (n <=? 57)%nat.

Definition is_py_space (c : ascii) : bool :=
  let n := nat_of_ascii c in
  (n =? 32)%nat || ((9 <=? n)%nat && (n <=? 13)%nat) || ((28 <=? n)%nat && (n <=? 31)%nat).

Fixpoint strip_left (cs : list ascii) : list ascii :=
  match cs with
  | c :: r => if is_py_space c then strip_left r else cs
  | [] => []
  end.

Definition py_strip (cs : list ascii) : list ascii := rev (strip_left (rev (strip_left cs))).

(** Digits of [int()]: a digit, then digits each optionally preceded by a
    single underscore. Returns the digit values, most significant first. *)
Fixpoint int_digits (cs : list ascii) (after_digit : bool) : option (list Z) :=
  match cs with
  | [] => if after_digit then Some [] else None
  | c :: r =>
      if is_digit c then
        match int_digits r true with
        | Some ds => Some ((Z.of_nat (nat_of_ascii c) - 48)%Z :: ds)
        | None => None
        end
      else if Ascii.eqb c "_"%char && after_digit then
        match r with
        | d :: _ => if is_digit d then int_digits r false else None
        | [] => None
        end
      else None
  end.

(** The value of a decimal digit. *)
Definition digit_value (c : ascii) : Z := (Z.of_nat (nat_of_ascii c) - 48)%Z.

(** The limit of [sys.get_int_max_str_digits()]. *)
Definition int_max_str_digits : nat := 4300.

(** [int(s)] on a string: surrounding whitespace, an optional sign, the
    digits; [None] is the [ValueError]. *)
Definition py_int_of_string (s : string) : option Z :=
  let cs := py_strip (list_ascii_of_string s) in
  let '(sign, body) :=
    match cs with
    | c :: r => if Ascii.eqb c "-"%char then (-1, r)%Z
                else if Ascii.eqb c "+"%char then (1, r)%Z else (1, cs)%Z
    | [] => (1%Z, [])
    end in
  match body with
  | c :: _ =>
      if is_digit c then
        match int_digits body false with
        | Some ds =>
            if (int_max_str_digits <? List.length ds)%nat then None
            else Some (sign * fold_left (fun acc d => 10 * acc + d) ds 0)%Z
        | None => None
        end
      else None
  | [] => None
  end.

Definition boolean_truthy : list string :=
  ["t"; "T"; "true"; "True"; "TRUE"; "on"; "On"; "ON"; "y"; "Y"; "yes"; "Yes"; "YES"; "1"].
Definition boolean_falsy : list string :=
  ["f"; "F"; "false"; "False"; "FALSE"; "off"; "Off"; "OFF"; "n"; "N"; "no"; "No"; "NO"; "0"].

(** A field error: the messages of the field, or, for a [List], the
    messages of each failing item by index. *)
Inductive field_error :=
| EMsgs (ms : list string)
| EItems (items : list (nat * list string)).

(** [Boolean._deserialize]: membership in the [truthy] / [falsy] sets
    ([True] and [1], [False] and [0] hash alike; a list or dict is
    unhashable, a [TypeError] reported as invalid). *)
Definition deserialize_boolean (v : pyval) : option bool :=
  match v with
  | VStr s => if bool_decide (s ∈ boolean_truthy) then Some true
              else if bool_decide (s ∈ boolean_falsy) then Some false else None
  | VInt 1 => Some true
  | VInt 0 => Some false
  | VBool b => Some b
  | _ => None
  end.

(** [Integer._deserialize] (non-strict): booleans refused, then [int(v)]. *)
Definition deserialize_integer (v : pyval) : option Z :=
  match v with
  | VInt z => Some z
  | VStr s => py_int_of_string s
  | _ => None
  end.

Definition deserialize_string (v : pyval) : option pyval :=
  match v with VStr s => Some (VStr s) | _ => None end.

(** One non-[None] raw value through a field of the given kind. *)
Definition deserialize_scalar (k : fkind) (v : pyval) : sum string pyval :=
  match k with
  | FString => match deserialize_string v with Some x => inr x | None => inl "Not a valid string." end
  | FInteger => match deserialize_integer v with Some z => inr (VInt z) | None => inl "Not a valid integer." end
  | FBoolean => match deserialize_boolean v with Some b => inr (VBool b) | None => inl "Not a valid boolean." end
  | FList _ => inl "Not a valid list."
  end.

(** [Field.deserialize] on a present raw value: [None] is refused
    ([allow_none] is off), a [List] deserialises each item with its inner
    field. *)
Definition deserialize_field (k : fkind) (v : pyval) : sum field_error pyval :=
  match v with
  | VNone => inl (EMsgs ["Field may not be null."])
  | _ =>
    match k with
    | FList inner =>
        match v with
        | VList xs =>
            let rs := imap (fun i x =>
                              match x with
                              | VNone => (i, inl "Field may not be null.")
                              | _ => (i, deserialize_scalar inner x)
                              end) xs in
            let errs := omap (fun '(i, r) => match r with inl m => Some (i, [m]) | inr _ => None end) rs in
            match errs with
            | [] => inr (VList (omap (fun '(_, r) => match r with inr x => Some x | inl _ => None end) rs))
            | _ => inl (EItems errs)
            end
        | _ => inl (EMsgs ["Not a valid list."])
        end
    | _ => match deserialize_scalar k v with inl m => inl (EMsgs [m]) | inr x => inr x end
    end
  end.

(* ------------------------------------------------------------------ *)
(** ** [Schema.load] with [unknown = INCLUDE] *)

Definition wire_name (af : string * field) : string :=
  match data_key af.2 with Some k => k | None => af.1 end.

Definition wire_names (c : cls) : list string := map wire_name (schema_fields c).

(** The field loop of [Schema._deserialize]: each declared field reads its
    wire key; a value is stored under the attribute name, an error under the
    wire key. *)
Definition load_step (m : pydict) (acc : pydict * list (string * field_error))
    (af : string * field) : pydict * list (string * field_error) :=
  let '(out, errs) := acc in
  let w := wire_name af in
  match m !! w with
  | None =>
      if required af.2 then (out, (errs ++ [(w, EMsgs ["Missing data for required field."])])%list)
      else (out, errs)
  | Some raw =>
      match deserialize_field (kind af.2) raw with
      | inr x => (<[af.1 := x]> out, errs)
      | inl e => (out, (errs ++ [(w, e)])%list)
      end
  end.

Definition load_fields (fs : list (string * field)) (m : pydict)
  : pydict * list (string * field_error) :=
  fold_left (load_step m) fs (∅, []).

(** [unknown = INCLUDE]: every input key that is no field's wire key is
    copied unchanged into the result, after the fields (so it overrides a
    field value stored under the same name). *)
Definition load_pure (fs : list (string * field)) (data : option pydict)
  : sum (list (string * field_error)) pydict :=
  match data with
  | None => inl [("_schema", EMsgs ["Invalid input type."])]
  | Some m =>
      let '(out, errs) := load_fields fs m in
      let unknown := filter (fun '(k, _) => k ∉ map wire_name fs) m in
      match errs with
      | [] => inr (unknown ∪ out)
      | _ => inl errs
      end
  end.

(** [schema.load(params)] on the dict object [params] refers to (anything
    but a dict is not a [Mapping]). *)
Definition schema_load (c : cls) (params : pyval) : M (sum (list (string * field_error)) pydict) :=
  fun h =>
    let data := match params with VDict l => h !! l | _ => None end in
    (h, Ret (load_pure (schema_fields c) data)).

(** [str(ValidationError(messages))]: the repr of the messages dict. *)
Definition repr_str (s : string) : string := "'" ++ s ++ "'".
Definition repr_msgs (ms : list string) : string := "[" ++ str_join ", " (map repr_str ms) ++ "]".
Definition repr_field_error (e : field_error) : string :=
  match e with
  | EMsgs ms => repr_msgs ms
  | EItems its => "{" ++ str_join ", " (map (fun '(i, ms) => pretty (N.of_nat i) ++ ": " ++ repr_msgs ms) its) ++ "}"
  end.
Definition validation_error (errs : list (string * field_error)) : exn :=
  mk_exn "ValidationError"
    ("{" ++ str_join ", " (map (fun '(k, e) => repr_str k ++ ": " ++ repr_field_error e) errs) ++ "}").

(* ------------------------------------------------------------------ *)
(** ** [str.format(attr=...)] *)

Definition is_field_stop (c : ascii) : bool :=
  Ascii.eqb c "!"%char || Ascii.eqb c ":"%char || Ascii.eqb c "."%char || Ascii.eqb c "["%char.

Fixpoint field_name_part (cs : list ascii) : list ascii :=
  match cs with
  | c :: r => if is_field_stop c then [] else c :: field_name_part r
  | [] => []
  end.

(** The value of one replacement field [{f}] when the only keyword argument
    is [attr]. A field naming anything else raises ([KeyError], or
    [IndexError] for an empty or numeric name: there are no positional
    arguments). [{attr}], [{attr!s}] and [{attr:}] give the value itself;
    any other conversion, format spec, attribute or index applied to [attr]
    is outside this model and is taken to raise. *)
Definition format_field (f : string) (attr : string) : sum exn string :=
  if bool_decide (f ∈ ["attr"; "attr!s"; "attr:"; "attr!s:"]) then inr attr
  else
    let name := string_of_list_ascii (field_name_part (list_ascii_of_string f)) in
    if String.eqb name "attr" then inl (mk_exn "ValueError" ("unsupported replacement field " ++ f))
    else if forallb is_digit (list_ascii_of_string name) then
      inl (mk_exn "IndexError" "Replacement index 0 out of range for positional args tuple")
    else inl (mk_exn "KeyError" (repr_str name)).

Definition sum_map {E A B} (f : A -> B) (r : sum E A) : sum E B :=
  match r with inl e => inl e | inr a => inr (f a) end.

Definition open_brace : ascii := "{"%char.
Definition close_brace : ascii := "}"%char.

(** The format-string scanner: literal text with [{{] and [}}] escapes,
    replacement fields between [{] and the matching [}]. [field] holds the
    nesting depth and the characters of the field being read. *)
Fixpoint format_scan (cs : list ascii) (field : option (nat * list ascii)) (attr : string)
  : sum exn (list ascii) :=
  match field with
  | None =>
      match cs with
      | [] => inr []
      | c :: r =>
          if Ascii.eqb c open_brace then
            match r with
            | c' :: r' => if Ascii.eqb c' open_brace
                          then sum_map (cons open_brace) $ format_scan r' None attr
                          else format_scan r (Some (O, [])) attr
            | [] => inl (mk_exn "ValueError" "Single '{' encountered in format string")
            end
          else if Ascii.eqb c close_brace then
            match r with
            | c' :: r' => if Ascii.eqb c' close_brace
                          then sum_map (cons close_brace) $ format_scan r' None attr
                          else inl (mk_exn "ValueError" "Single '}' encountered in format string")
            | [] => inl (mk_exn "ValueError" "Single '}' encountered in format string")
            end
          else sum_map (cons c) $ format_scan r None attr
      end
  | Some (d, acc) =>
      match cs with
      | [] => inl (mk_exn "ValueError" "expected '}' before end of string")
      | c :: r =>
          if Ascii.eqb c close_brace then
            match d with
            | O =>
                match format_field (string_of_list_ascii (rev acc)) attr with
                | inr v => sum_map (app (list_ascii_of_string v)) $ format_scan r None attr
                | inl e => inl e
                end
            | S d' => format_scan r (Some (d', c :: acc)) attr
            end
          else if Ascii.eqb c open_brace then format_scan r (Some (S d, c :: acc)) attr
          else format_scan r (Some (d, c :: acc)) attr
      end
  end.

(** [descr.format(attr=attributes)] *)
Definition py_format_attr (descr attributes : string) : sum exn string :=
  sum_map string_of_list_ascii $ format_scan (list_ascii_of_string descr) None attributes.

(* ------------------------------------------------------------------ *)
(** ** [utils.py]: error bodies and the features pipeline *)

Definition catalyst_wrapper := "Catalyst Wrapper".

(** [remove_query_params(url)]: [url.split('?')[0]] when [url] contains a
    [?]. ([str.split] never returns an empty list, so the [[]] case, an
    [IndexError] in Python, cannot occur.) *)
Definition remove_query_params (url : string) : string :=
  if bool_decide ("?"%char ∈ list_ascii_of_string url) then
    match str_split "?"%char url with
    | p :: _ => p
    | [] => url
    end
  else url.

Definition error_body (code : Z) (description : string) : pydict :=
  <["code" := VInt code]> (<["description" := VStr description]>
    (<["errorSource" := VStr catalyst_wrapper]> ∅)).

(** [handle_error(error, description, code)]: the assertion, then
    [description] defaults to [str(error)] when empty. *)
Definition handle_error (error : option exn) (description : option string) (code : Z) : M pydict :=
  let descr := match description with Some d => d | None => "" end in
  if negb (String.eqb descr "") then mret (error_body code descr)
  else match error with
       | Some e => mret (error_body code (exn_str e))
       | None => raise (mk_exn "AssertionError" "Either error or description must be provided.")
       end.

Definition method_not_allowed :=
  "The HTTP method requested is not supported. This endpoint only supports 'GET' requests.".

(** [BaseSerialisedRequest] *)
Record request := mk_request {
  req_method : pyval;
  req_url : pyval;
  req_params : pyval;
  req_route_params : pyval;
  req_headers : pyval
}.

Definition is_str (v : pyval) (s : string) : bool :=
  match v with VStr s' => String.eqb s' s | _ => false end.

(** A downstream [ngd_api_func]: [query_params], [headers], and the
    control parameters passed as keyword arguments. *)
Definition downstream := pydict -> pyval -> pydict -> M pydict.

(** [if multi_collection: col = params.get('collection');
     if col: params['collection'] = col.split(',')] -- in place. *)
Definition split_collection_param (multi : bool) (params : pyval) : M unit :=
  if multi then
    col ← py_get params "collection" VNone;
    if truthy col then
      match col with
      | VStr s => py_setitem params "collection" (VList (map VStr (str_split ","%char s)))
      | _ => raise (mk_exn "AttributeError" ("'" ++ type_name col ++ "' object has no attribute 'split'"))
      end
    else mret tt
  else mret tt.

(** [custom_params = {k: parsed_params.pop(k) for k in schema.fields.keys()
                      if k in parsed_params}]: (forwarded, control). *)
Definition partition_step (acc : pydict * pydict) (k : string) : pydict * pydict :=
  let '(fwd, ctl) := acc in
  match fwd !! k with
  | Some v => (delete k fwd, <[k := v]> ctl)
  | None => (fwd, ctl)
  end.

Definition partition_params (names : list string) (parsed : pydict) : pydict * pydict :=
  fold_left partition_step names (parsed, ∅).

(** The partition, then [custom_params['collection'] =
    route_params.get('collection')] for a single-collection schema. *)
Definition control_params (c : cls) (parsed : pydict) (route_params : pyval) : M (pydict * pydict) :=
  let '(fwd, ctl) := partition_params (field_names c) parsed in
  if is_multi_collection c then mret (fwd, ctl)
  else coll ← py_get route_params "collection" VNone;
       mret (fwd, <["collection" := coll]> ctl).

(** [', '.join(x.replace('_', '-') for x in schema.fields if x != 'limit')] *)
Definition attr_list (c : cls) : string :=
  str_join ", " (map (str_replace_char "_"%char "-"%char)
                     (filter (fun x => negb (String.eqb x "limit")) (field_names c))).

(** The [{attr}] substitution in a downstream error description. *)
Definition fill_attr_placeholder (c : cls) (resp : pydict) : M pydict :=
  let descr := dict_get_default resp "description" VNone in
  if truthy (dict_get_default resp "errorSource" VNone) then
    match descr with
    | VStr s =>
        match py_format_attr s (attr_list c) with
        | inr s' => mret (<["description" := VStr s']> resp)
        | inl e => raise e
        end
    | _ => mret resp
    end
  else mret resp.

(** The validation lines shared by the features handlers: the in-place
    split of [collection], then [schema.load(params)]. *)
Definition load_request_params (c : cls) (params : pyval)
  : M (sum (list (string * field_error)) pydict) :=
  split_collection_param (is_multi_collection c) params;;
  schema_load c params.

(** [construct_features_response(data, schema_class, ngd_api_func)] *)
Definition construct_features_response (data : request) (c : cls) (ngd : downstream) : M pydict :=
  if negb (is_str (req_method data) "GET") then handle_error None (Some method_not_allowed) 405
  else
    r ← load_request_params c (req_params data);
    match r with
    | inl errs => handle_error (Some (validation_error errs)) None 400
    | inr parsed =>
        '(fwd, ctl) ← control_params c parsed (req_route_params data);
        resp ← ngd fwd (req_headers data) ctl;
        fill_attr_placeholder c resp
    end.

(** [construct_collections_response(data)]; the downstream calls
    [get_specific_latest_collections([collection], **parsed_params)] and
    [get_latest_collection_versions( **parsed_params)] are parameters. The
    [custom_dimensions] telemetry dict is built from pure [str()] calls and
    never used (its [track_event] is commented out), so it is left out. *)
Definition construct_collections_response (data : request)
    (get_specific_latest_collections : list pyval -> pydict -> M pydict)
    (get_latest_collection_versions : pydict -> M pydict) : M pydict :=
  if negb (is_str (req_method data) "GET") then handle_error None (Some method_not_allowed) 405
  else
    let params := req_params data in
    m ← py_dict_contents params;
    rud ← py_get params "recent-update-days" VNone;
    let fail_condition1 := (1 <? size m)%nat in
    let fail_condition2 := (size m =? 1)%nat && negb (truthy rud) in
    if fail_condition1 || fail_condition2 then
      handle_error None (Some "The only supported query parameter is 'recent-update-days'.") 400
    else
      collection ← py_get (req_route_params data) "collection" VNone;
      r ← schema_load LatestCollectionsSchema params;
      match r with
      | inl errs => handle_error (Some (validation_error errs)) None 400
      | inr parsed =>
          if truthy collection then get_specific_latest_collections [collection] parsed
          else get_latest_collection_versions parsed
      end.

(* ------------------------------------------------------------------ *)
(** ** [lambda_app.py]: the AWS adapter and serialiser *)

(** A fresh dict object (a [{}] literal). *)
Definition py_new_dict (m : pydict) : M pyval := fun h =>
  let l := fresh (dom h) in (<[l := m]> h, Ret (VDict l)).

(** [a + b] on the two [requestContext] strings. *)
Definition py_str_add (a b : pyval) : M pyval :=
  match a, b with
  | VStr x, VStr y => mret (VStr (x ++ y))
  | _, _ => raise (mk_exn "TypeError" "unsupported operand type(s) for +")
  end.

(** [AWSSerialisedRequest(event)]: the request keeps references to the
    event's own [queryStringParameters], [pathParameters] and [headers]
    objects. *)
Definition aws_serialised_request (event : pyval) : M request :=
  http ← py_get event "http" VNone;
  method ← py_get http "method" VNone;
  d0 ← py_new_dict ∅;
  req_context ← py_get event "requestContext" d0;
  domain ← py_get req_context "domainName" VNone;
  path ← py_get req_context "path" VNone;
  url ← py_str_add domain path;
  d1 ← py_new_dict ∅;
  params ← py_get event "queryStringParameters" d1;
  route_params ← py_get event "pathParameters" VNone;
  d2 ← py_new_dict ∅;
  headers ← py_get event "headers" d2;
  mret (mk_request method url params route_params headers).

(** The Lambda proxy response. *)
Record aws_response := mk_aws_response {
  isBase64Encoded : bool;
  statusCode : pyval;
  aws_headers : pyval;
  body : pydict
}.

(** [aws_serialise_response(data)]: [data.pop('code', 200)], then
    [data['headers']] ([KeyError] when absent). *)
Definition aws_serialise_response (data : pydict) : M aws_response :=
  let code := dict_get_default data "code" (VInt 200) in
  let data' := delete "code" data in
  match data' !! "headers" with
  | Some hd => mret (mk_aws_response false code hd data')
  | None => raise (mk_exn "KeyError" (repr_str "headers"))
  end.

(** [aws_process_request(event, construct_response_func)] *)
Definition aws_process_request (event : pyval) (construct_response_func : request -> M pydict)
  : M aws_response :=
  try_except
    (data ← aws_serialised_request event;
     response ← construct_response_func data;
     aws_serialise_response response)
    (fun e =>
       bare_error ← handle_error (Some e) None 500;
       aws_serialise_response bare_error).

(* ------------------------------------------------------------------ *)
(** ** [function_app.py]: the Azure [construct_response] *)

(** The parts of an Azure [HttpRequest] the code reads; [az_headers] is
    [req.headers.__dict__.get('__http_headers__', {})]. *)
Record http_request := mk_http_request {
  az_method : string;
  az_params : pydict;
  az_route_params : pydict;
  az_headers : pyval
}.

(** What [construct_response] returns: [None], a bare dict (the early
    [return handle_error(...)]s), or an [HttpResponse] (its JSON body and
    [status_code]). *)
Inductive az_result :=
| AzNone
| AzDict (d : pydict)
| AzHttp (body : pydict) (status_code : pyval).

(** [get_request_data(req)]: [params = {**req.params}] is a fresh copy. *)
Definition get_request_data (req : http_request) : M request :=
  params ← py_new_dict (az_params req);
  route_params ← py_new_dict (az_route_params req);
  mret (mk_request (VStr (az_method req)) VNone params route_params (az_headers req)).

(** [construct_response(req, schema_class, func_)]. [track_event] is an
    external telemetry call with no effect on the result. The [except]
    branch calls [handle_error] and drops its result. *)
Definition construct_response (req : http_request) (c : cls) (func_ : downstream) : M az_result :=
  try_except
    (data ← get_request_data req;
     if negb (is_str (req_method data) "GET") then
       d ← handle_error None (Some method_not_allowed) 405; mret (AzDict d)
     else
       r ← load_request_params c (req_params data);
       match r with
       | inl errs => d ← handle_error (Some (validation_error errs)) None 400; mret (AzDict d)
       | inr parsed =>
           '(fwd, ctl) ← control_params c parsed (req_route_params data);
           resp ← func_ fwd (req_headers data) ctl;
           resp' ← fill_attr_placeholder c resp;
           let resp'' := delete "telemetryData" resp' in
           mret (AzHttp resp'' (dict_get_default resp'' "code" (VInt 200)))
       end)
    (fun e => _ ← handle_error (Some e) None 500; mret AzNone).

(** The body of the [try] of [construct_response]. *)
Definition construct_response_try (req : http_request) (c : cls) (func_ : downstream) : M az_result :=
  data ← get_request_data req;
  if negb (is_str (req_method data) "GET") then
    d ← handle_error None (Some method_not_allowed) 405; mret (AzDict d)
  else
    r ← load_request_params c (req_params data);
    match r with
    | inl errs => d ← handle_error (Some (validation_error errs)) None 400; mret (AzDict d)
    | inr parsed =>
        '(fwd, ctl) ← control_params c parsed (req_route_params data);
        resp ← func_ fwd (req_headers data) ctl;
        resp' ← fill_attr_placeholder c resp;
        let resp'' := delete "telemetryData" resp' in
        mret (AzHttp resp'' (dict_get_default resp'' "code" (VInt 200)))
    end.

(* ------------------------------------------------------------------ *)
(** ** [Azure/function_app.py]: the sibling [construct_response] *)

Module Azure_function_app.

(** The parts of an Azure [HttpRequest] this version reads; [http_headers]
    is [req.headers.__dict__.get('__http_headers__')] ([None] when
    absent: there is no default here). *)
Record HttpRequest := mk_HttpRequest {
  method : string;
  params : pydict;
  route_params : pydict;
  http_headers : option pyval
}.

(** [HttpResponse(body=json.dumps(d), mimetype="application/json",
    status_code=code)]: the JSON body as the dict it serialises, and the
    status code ([200] when not given). *)
Record HttpResponse := mk_HttpResponse {
  resp_body : pydict;
  resp_status : Z
}.

(** [construct_response(req, schema_class, func_)]; [log_request_details]
    is the module constant [LOG_REQUEST_DETAILS]. [params = {**req.params}]
    is a fresh copy; [req.route_params] is the request's own mapping,
    which the code only reads. [track_event] is an external telemetry call
    with no effect on the result. *)
Definition construct_response (log_request_details : bool) (req : HttpRequest) (c : cls)
    (func_ : downstream) : M HttpResponse :=
  try_except
    (if negb (String.eqb (method req) "GET") then
       mret (mk_HttpResponse (error_body 405 method_not_allowed) 405)
     else
       params ← py_new_dict (params req);
       r ← load_request_params c params;
       match r with
       | inl errs => mret (mk_HttpResponse (error_body 400 (exn_str (validation_error errs))) 400)
       | inr parsed =>
           route_params ← py_new_dict (route_params req);
           '(fwd, ctl) ← control_params c parsed route_params;
           let headers := match http_headers req with Some v => v | None => VNone end in
           data ← func_ fwd headers ctl;
           data' ← fill_attr_placeholder c data;
           let data'' := if log_request_details then delete "telemetryData" data' else data' in
           mret (mk_HttpResponse data'' 200)
       end)
    (fun e => mret (mk_HttpResponse (error_body 500 (exn_str e)) 500)).

End Azure_function_app.

(* ------------------------------------------------------------------ *)
(** ** The endpoint registry *)

(** A capability combination of a features endpoint. *)
Record caps := mk_caps { has_limit : bool; has_geom : bool; has_col : bool }.

(** The schema class each route of [function_app.py] / [lambda_app.py]
    passes for its capabilities. *)
Definition schema_of (k : caps) : cls :=
  match has_limit k, has_geom k, has_col k with
  | false, false, false => CatalystBaseSchema
  | true, false, false => LimitSchema
  | false, true, false => GeomSchema
  | false, false, true => ColSchema
  | true, true, false => LimitGeomSchema
  | true, false, true => LimitColSchema
  | false, true, true => GeomColSchema
  | true, true, true => LimitGeomColSchema
  end.

(** The capability fragments a combination is built from. *)
Definition fragments (k : caps) : list cls :=
  CatalystBaseSchema :: (if has_limit k then [LimitSchema] else [])
    ++ (if has_geom k then [GeomSchema] else [])
    ++ (if has_col k then [ColSchema] else []).

Definition field_name_set (c : cls) : gset string := list_to_set (field_names c).

Definition required_names (c : cls) : gset string :=
  list_to_set (map fst (filter (fun af => required af.2 = true) (schema_fields c))).

Definition all_caps : list caps :=
  [mk_caps false false false; mk_caps true false false; mk_caps false true false;
   mk_caps false false true; mk_caps true true false; mk_caps true false true;
   mk_caps false true true; mk_caps true true true].

(* ------------------------------------------------------------------ *)
(** ** Concrete inputs *)

Definition l_event : loc := 1%positive.
Definition l_http : loc := 2%positive.
Definition l_ctx : loc := 3%positive.
Definition l_query : loc := 4%positive.
Definition l_path : loc := 5%positive.
Definition l_headers : loc := 6%positive.

(** A Lambda event for [GET example.com/features/bld-fts-building-4/items]
    with the given query-string dict. *)
Definition lambda_heap (query : pydict) : heap :=
  <[l_event := <["http" := VDict l_http]> (<["requestContext" := VDict l_ctx]>
                 (<["queryStringParameters" := VDict l_query]>
                 (<["pathParameters" := VDict l_path]> (<["headers" := VDict l_headers]> ∅))))]>
  (<[l_http := <["method" := VStr "GET"]> ∅]>
  (<[l_ctx := <["domainName" := VStr "example.com"]> (<["path" := VStr "/features/bld-fts-building-4/items"]> ∅)]>
  (<[l_query := query]>
  (<[l_path := <["collection" := VStr "bld-fts-building-4"]> ∅]>
  (<[l_headers := <["key" := VStr "k"]> ∅]> ∅))))).

(** A downstream function that raises. *)
Definition raising_downstream : downstream :=
  fun _ _ _ => raise (mk_exn "ValueError" "boom").

(** A downstream function that answers with a templated error. *)
Definition attr_error_downstream : downstream :=
  fun _ _ _ => mret (<["errorSource" := VStr "OS NGD API"]>
                     (<["description" := VStr "Not supported: {attr}"]> ∅)).

(** A downstream function that answers with the query parameters it was
    given, plus the [headers] it was given. *)
Definition echo_query_downstream : downstream :=
  fun q hd _ => mret (<["headers" := hd]> q).

(** A downstream function that answers with its control parameters. *)
Definition echo_control_downstream : downstream :=
  fun _ _ ctl => mret ctl.

(** The features request a Lambda event above is adapted to. *)
Definition get_request : request :=
  mk_request (VStr "GET") (VStr "example.com/features/bld-fts-building-4/items")
    (VDict l_query) (VDict l_path) (VDict l_headers).

Definition azure_get (params : pydict) : http_request :=
  mk_http_request "GET" params (<["collection" := VStr "bld-fts-building-4"]> ∅) VNone.

Definition outcome_is_ret {A} (o : outcome A) : bool :=
  match o with Ret _ => true | Raise _ => false end.

(** Predicates used by the further properties. *)

(** A piece of text without braces. *)
Definition brace_free (s : string) : Prop :=
  (open_brace ∉ list_ascii_of_string s) /\ (close_brace ∉ list_ascii_of_string s).

(** Every value [m] returns satisfies [P] (raising is allowed). *)
Definition returns_only {A} (P : A -> Prop) (m : M A) : Prop :=
  forall h, match (m h).2 with Ret a => P a | Raise _ => True end.

(** [m] leaves every existing object as it was. *)
Definition keeps_objects {A} (m : M A) : Prop :=
  forall h l v, h !! l = Some v -> (m h).1 !! l = Some v.

(** Concrete inputs of the witnesses below. *)
Definition partition_witness_heap : heap :=
  lambda_heap (<["request-limit" := VStr "5"]> (<["filter" := VStr "height > 3"]> ∅)).

Definition partition_witness_run := load_request_params LimitSchema (VDict l_query) partition_witness_heap.

Definition partition_witness_parsed : pydict :=
  match partition_witness_run.2 with Ret (inr p) => p | _ => ∅ end.

Definition split_witness_heap : heap :=
  lambda_heap (<["collection" := VStr "a,b,c"]> ∅).

Definition passthrough_witness_query : pydict :=
  <["filter" := VStr "height > 3"]> (<["wkt" := VStr "POINT (0 0)"]> ∅).

Definition passthrough_witness_heap : heap := lambda_heap passthrough_witness_query.

Definition passthrough_witness_run :=
  load_request_params GeomSchema (VDict l_query) passthrough_witness_heap.

Definition passthrough_witness_parsed : pydict :=
  match passthrough_witness_run.2 with Ret (inr p) => p | _ => ∅ end.

Definition collections_witness_heap (query : pydict) : heap := lambda_heap query.

Definition boolean_witness_query : pydict := <["use-latest-collection" := VStr "maybe"]> ∅.

Definition invalid_boolean_query : pydict := <["use-latest-collection" := VStr "maybe"]> ∅.

Definition invalid_boolean_errors : list (string * field_error) :=
  match load_pure (schema_fields GeomSchema) (Some invalid_boolean_query) with
  | inl errs => errs
  | inr _ => []
  end.

Definition attr_witness_segs : list string := ["Unsupported: "; " (see "; ")"].

Definition attr_witness_resp : pydict :=
  <["errorSource" := VStr "OS NGD API"]>
    (<["description" := VStr (str_join "{attr}" attr_witness_segs)]> ∅).

Definition shadowed_limit_query : pydict :=
  <["request-limit" := VStr "5"]> (<["request_limit" := VStr "abc"]> ∅).

Definition shadowed_limit_out : pydict :=
  match load_pure (schema_fields LimitSchema) (Some shadowed_limit_query) with
  | inr out => out
  | inl _ => ∅
  end.

Definition diverted_witness_query : pydict :=
  <["request-limit" := VStr "5"]> (<["request_limit" := VStr "abc"]> ∅).

Definition diverted_witness_heap : heap := lambda_heap diverted_witness_query.

Definition diverted_witness_run :=
  load_request_params LimitSchema (VDict l_query) diverted_witness_heap.

Definition diverted_witness_parsed : pydict :=
  match diverted_witness_run.2 with Ret (inr p) => p | _ => ∅ end.

(* ------------------------------------------------------------------ *)
(** * Theorems *)

(** ** The schema registry *)

(** C7: for each of the eight capability combinations, the field set of the
    composed schema is the union of the field sets of its fragments (Base,
    Limit, Geometry/Hierarchical, Collection), no field is declared twice,
    and a field required by a fragment is required in the composed schema. *)
Theorem composed_schema_is_union_of_fragments (k : caps) :
  field_name_set (schema_of k) = ⋃ (field_name_set <$> fragments k)
  /\ NoDup (field_names (schema_of k))
  /\ (forall fr, fr ∈ fragments k -> required_names fr ⊆ required_names (schema_of k)).
Proof.
  destruct k as [[] [] []];
    (split; [vm_compute; reflexivity | split;
      [apply (bool_decide_unpack _); vm_compute; reflexivity
      | apply Forall_forall; apply (bool_decide_unpack _); vm_compute; reflexivity]]).
Qed.

(** ** Failure handling at the outermost wrapper *)

(** C1 (evaluated at a failing input): a [GET] Lambda event for the base
    endpoint whose downstream function raises [ValueError('boom')].
    [aws_process_request] catches it, builds the 500 body, and then
    [aws_serialise_response] raises [KeyError('headers')] on that body,
    which escapes the wrapper; Azure's [construct_response] catches the
    same exception and returns [None]. *)
Theorem downstream_exception_not_turned_into_response :
  (aws_process_request (VDict l_event)
     (fun d => construct_features_response d CatalystBaseSchema raising_downstream)
     (lambda_heap ∅)).2 = Raise (mk_exn "KeyError" "'headers'")
  /\ (construct_response (azure_get ∅) CatalystBaseSchema raising_downstream ∅).2 = Ret AzNone.
Proof. split; vm_compute; reflexivity. Qed.

(** ** The [{attr}] substitution *)

(** C2 (evaluated at a failing input): for the Limit+Geometry schema and a
    downstream answer [{"errorSource": ..., "description": "Not supported: {attr}"}],
    the substituted list still contains [request-limit]: the filter
    [x != 'limit'] never matches the field [request_limit]. *)
Theorem limit_field_listed_in_attr_placeholder :
  attr_list LimitGeomSchema = "wkt, use-latest-collection, hierarchical-output, request-limit"
  /\ (construct_features_response get_request LimitGeomSchema attr_error_downstream
        (lambda_heap ∅)).2
     = Ret (<["errorSource" := VStr "OS NGD API"]>
             (<["description" := VStr "Not supported: wkt, use-latest-collection, hierarchical-output, request-limit"]> ∅)).
Proof. split; vm_compute; reflexivity. Qed.

(** ** Mutation of the event *)

(** C9 (evaluated at a failing input): a multi-collection Lambda event with
    [collection=a,b]. The request object shares the event's
    [queryStringParameters] dict, and [construct_features_response] writes
    the split list into it: after a successful invocation the event's query
    dict holds [['a', 'b']] instead of ['a,b']. *)
Theorem multi_collection_request_mutates_event :
  lambda_heap (<["collection" := VStr "a,b"]> ∅) !! l_query
    = Some (<["collection" := VStr "a,b"]> ∅)
  /\ (aws_process_request (VDict l_event)
        (fun d => construct_features_response d ColSchema echo_query_downstream)
        (lambda_heap (<["collection" := VStr "a,b"]> ∅))).1 !! l_query
     = Some (<["collection" := VList [VStr "a"; VStr "b"]]> ∅)
  /\ outcome_is_ret (aws_process_request (VDict l_event)
        (fun d => construct_features_response d ColSchema echo_query_downstream)
        (lambda_heap (<["collection" := VStr "a,b"]> ∅))).2 = true.
Proof. split; [|split]; vm_compute; reflexivity. Qed.

(** ** Counterexamples *)

(** C8 counterexample: ["True"] for the boolean field
    [use-latest-collection] is coerced to [True] (it is in marshmallow's
    [truthy] set) and the downstream function is called; no 400. *)
Lemma capitalised_true_accepted :
  (construct_features_response get_request GeomSchema echo_control_downstream
     (lambda_heap (<["use-latest-collection" := VStr "True"]> ∅))).2
  = Ret (<["collection" := VStr "bld-fts-building-4"]> (<["use_latest_collection" := VBool true]> ∅)).
Proof. vm_compute. reflexivity. Qed.

(* ------------------------------------------------------------------ *)
(** ** Lemmas on the partition of the validated parameters *)

Lemma partition_fold_spec (names : list string) (f0 c0 f c : pydict) :
  fold_left partition_step names (f0, c0) = (f, c) ->
  (forall k, k ∈ names -> f !! k = None /\
     c !! k = match f0 !! k with Some v => Some v | None => c0 !! k end)
  /\ (forall k, k ∉ names -> f !! k = f0 !! k /\ c !! k = c0 !! k).
Proof.
  revert f0 c0. induction names as [|k0 names IH]; intros f0 c0 Hfold; simpl in Hfold.
  - injection Hfold as <- <-. split; [intros k Hk; set_solver | done].
  - destruct (f0 !! k0) as [v|] eqn:E; apply IH in Hfold as [Hin Hout].
    + split.
      * intros k Hk. destruct (decide (k ∈ names)) as [Hn|Hn].
        -- destruct (Hin k Hn) as [-> ->]. split; [done|].
           destruct (decide (k = k0)) as [->|Hne]; simplify_map_eq; done.
        -- assert (k = k0) as -> by set_solver.
           destruct (Hout k0 Hn) as [-> ->]. simplify_map_eq. done.
      * intros k Hk. assert (k ≠ k0) by set_solver.
        destruct (Hout k) as [-> ->]; [set_solver|]. simplify_map_eq. done.
    + split.
      * intros k Hk. destruct (decide (k ∈ names)) as [Hn|Hn].
        -- destruct (Hin k Hn) as [-> ->]. done.
        -- assert (k = k0) as -> by set_solver.
           destruct (Hout k0 Hn) as [-> ->]. rewrite E. done.
      * intros k Hk. apply Hout. set_solver.
Qed.

Lemma partition_params_spec (names : list string) (parsed fwd ctl : pydict) :
  partition_params names parsed = (fwd, ctl) ->
  (forall k, k ∈ names -> fwd !! k = None /\ ctl !! k = parsed !! k)
  /\ (forall k, k ∉ names -> fwd !! k = parsed !! k /\ ctl !! k = None).
Proof.
  intros H. apply partition_fold_spec in H as [Hin Hout]. split.
  - intros k Hk. destruct (Hin k Hk) as [-> ->].
    destruct (parsed !! k); rewrite ?lookup_empty; done.
  - intros k Hk. destruct (Hout k Hk) as [-> ->]. rewrite lookup_empty. done.
Qed.

Lemma single_collection_has_no_collection_field (c : cls) :
  is_multi_collection c = false -> "collection" ∉ field_names c.
Proof.
  intros H. destruct c; vm_compute in H; try discriminate;
    apply (bool_decide_unpack _); vm_compute; reflexivity.
Qed.

Lemma multi_collection_declares_collection (c : cls) :
  is_multi_collection c = true ->
  schema_fields c !! 3%nat = Some ("collection", mk_field None (FList FString) true)
  /\ NoDup (field_names c) /\ NoDup (wire_names c)
  /\ wire_names c !! 3%nat = Some "collection".
Proof.
  intros H. destruct c; vm_compute in H; try discriminate;
    (split; [reflexivity | split; [|split];
       [apply (bool_decide_unpack _); vm_compute; reflexivity
       | apply (bool_decide_unpack _); vm_compute; reflexivity
       | reflexivity]]).
Qed.

(** [control_params] does not touch the heap and splits the validated
    mapping along the declared field names; a single-collection schema's
    [collection] comes from the route parameters. *)
Lemma control_params_spec (c : cls) (parsed : pydict) (rp : pyval) (h : heap) :
  (is_multi_collection c = true \/ exists l r, rp = VDict l /\ h !! l = Some r) ->
  exists fwd ctl, control_params c parsed rp h = (h, Ret (fwd, ctl))
    /\ (forall k, k ∈ field_names c -> fwd !! k = None /\ ctl !! k = parsed !! k)
    /\ (forall k, k ∉ field_names c -> fwd !! k = parsed !! k)
    /\ (is_multi_collection c = false -> forall l r, rp = VDict l -> h !! l = Some r ->
          ctl !! "collection" = Some (dict_get_default r "collection" VNone)).
Proof.
  intros Hrp. unfold control_params.
  destruct (partition_params (field_names c) parsed) as [fwd ctl] eqn:Hp.
  apply partition_params_spec in Hp as [Hin Hout].
  destruct (is_multi_collection c) eqn:Hm.
  - exists fwd, ctl. split; [reflexivity|]. split; [done|]. split; [|done].
    intros k Hk. apply Hout. done.
  - destruct Hrp as [Hrp|(l & r & -> & Hl)]; [discriminate|].
    pose proof (single_collection_has_no_collection_field c Hm) as Hnc.
    exists fwd, (<["collection" := dict_get_default r "collection" VNone]> ctl).
    split; [unfold mbind, M_bind, py_get; simpl; rewrite Hl; reflexivity|].
    split; [|split].
    + intros k Hk. assert (k ≠ "collection") by set_solver.
      rewrite lookup_insert_ne by done. apply Hin. done.
    + intros k Hk. apply Hout. done.
    + intros _ l' r' [= <-] Hl'. rewrite Hl in Hl'. injection Hl' as <-.
      rewrite lookup_insert_eq. done.
Qed.

(** After a successful validation, [construct_features_response] runs the
    control-parameter step, the downstream call and the substitution. *)
Lemma features_run_after_validation (c : cls) (data : request) (ngd : downstream)
    (h h1 : heap) (parsed : pydict) :
  is_str (req_method data) "GET" = true ->
  load_request_params c (req_params data) h = (h1, Ret (inr parsed)) ->
  construct_features_response data c ngd h
  = (control_params c parsed (req_route_params data)
       ≫= (fun '(fwd, ctl) => ngd fwd (req_headers data) ctl ≫= fill_attr_placeholder c)) h1.
Proof.
  intros Hget Hload. unfold construct_features_response. rewrite Hget. simpl.
  unfold mbind at 1, M_bind at 1. rewrite Hload. reflexivity.
Qed.

(* ------------------------------------------------------------------ *)
(** ** Lemmas on [Schema.load] *)

Lemma load_step_eq (m : pydict) (o : pydict) e af :
  load_step m (o, e) af =
  match m !! wire_name af with
  | None =>
      if required af.2 then (o, (e ++ [(wire_name af, EMsgs ["Missing data for required field."])])%list)
      else (o, e)
  | Some raw =>
      match deserialize_field (kind af.2) raw with
      | inr x => (<[af.1 := x]> o, e)
      | inl err => (o, (e ++ [(wire_name af, err)])%list)
      end
  end.
Proof. reflexivity. Qed.

Ltac load_step_cases m af :=
  rewrite load_step_eq;
  destruct (m !! wire_name af) as [?raw|] eqn:?Hw;
  [destruct (deserialize_field (kind af.2) raw) as [?err|?x] eqn:?Hd
  | destruct (required af.2) eqn:?Hr].

Lemma load_fold_untouched (m : pydict) (fs : list (string * field)) (o0 : pydict) e0 a :
  a ∉ fs.*1 -> (fold_left (load_step m) fs (o0, e0)).1 !! a = o0 !! a.
Proof.
  revert o0 e0. induction fs as [|af fs IH]; intros o0 e0 Ha; [done|].
  simpl in Ha. apply not_elem_of_cons in Ha as [Hne Ha]. cbn [fold_left].
  load_step_cases m af; rewrite IH by done; try done.
  rewrite lookup_insert_ne by congruence. done.
Qed.

Lemma load_fold_value (m : pydict) (fs : list (string * field)) (o0 : pydict) e0 a f raw x :
  NoDup fs.*1 -> (a, f) ∈ fs -> m !! wire_name (a, f) = Some raw ->
  deserialize_field (kind f) raw = inr x ->
  (fold_left (load_step m) fs (o0, e0)).1 !! a = Some x.
Proof.
  revert o0 e0. induction fs as [|af fs IH]; intros o0 e0 Hnd Hin Hraw Hx;
    [set_solver|].
  simpl in Hnd. apply NoDup_cons in Hnd as [Hnotin Hnd]. cbn [fold_left].
  apply elem_of_cons in Hin as [<-|Hin].
  - rewrite load_step_eq, Hraw. cbn [snd fst]. rewrite Hx.
    rewrite load_fold_untouched by done. apply lookup_insert_eq.
  - destruct (load_step m (o0, e0) af) as [o1 e1]. apply IH; done.
Qed.

Lemma load_fold_errors_grow (m : pydict) (fs : list (string * field)) o0 e0 we :
  we ∈ e0 -> we ∈ (fold_left (load_step m) fs (o0, e0)).2.
Proof.
  revert o0 e0. induction fs as [|af fs IH]; intros o0 e0 Hwe; [done|]. cbn [fold_left].
  load_step_cases m af; apply IH; rewrite ?elem_of_app; auto.
Qed.

Lemma load_fold_error_recorded (m : pydict) (fs : list (string * field)) o0 e0 af raw err :
  af ∈ fs -> m !! wire_name af = Some raw -> deserialize_field (kind af.2) raw = inl err ->
  (wire_name af, err) ∈ (fold_left (load_step m) fs (o0, e0)).2.
Proof.
  revert o0 e0. induction fs as [|af' fs IH]; intros o0 e0 Hin Hraw Herr; [set_solver|].
  cbn [fold_left]. apply elem_of_cons in Hin as [->|Hin].
  - rewrite load_step_eq, Hraw, Herr.
    apply load_fold_errors_grow. set_solver.
  - destruct (load_step m (o0, e0) af') as [o1 e1]. apply IH; done.
Qed.

Lemma load_fold_errors_from_fields (m : pydict) (fs : list (string * field)) o0 e0 w err :
  (w, err) ∈ (fold_left (load_step m) fs (o0, e0)).2 ->
  (w, err) ∈ e0 \/ exists af, af ∈ fs /\ wire_name af = w /\
    ((m !! w = None /\ required af.2 = true)
     \/ exists raw, m !! w = Some raw /\ deserialize_field (kind af.2) raw = inl err).
Proof.
  revert o0 e0. induction fs as [|af fs IH]; intros o0 e0 H; [auto|]. cbn [fold_left] in H.
  rewrite load_step_eq in H.
  destruct (m !! wire_name af) as [raw|] eqn:Hw;
  [destruct (deserialize_field (kind af.2) raw) as [err'|x] eqn:Hd
  | destruct (required af.2) eqn:Hr]; apply IH in H as [H|(af' & Hin & Hw' & Hcase)];
    try (right; exists af'; split; [set_solver|]; done).
  all: try (left; done).
  all: apply elem_of_app in H as [H|H]; [left; done|].
  all: apply list_elem_of_singleton in H; injection H as Hw' Herr'.
  all: right; exists af; split; [set_solver|]; split; [done|]; subst; eauto.
Qed.

Lemma load_fold_same_reads (m1 m2 : pydict) (fs : list (string * field)) acc :
  (forall af, af ∈ fs -> m1 !! wire_name af = m2 !! wire_name af) ->
  fold_left (load_step m1) fs acc = fold_left (load_step m2) fs acc.
Proof.
  revert acc. induction fs as [|af fs IH]; intros acc H; [done|]. cbn [fold_left].
  assert (load_step m1 acc af = load_step m2 acc af) as ->.
  { destruct acc. unfold load_step. rewrite (H af) by set_solver. reflexivity. }
  apply IH. intros af' ?. apply H. set_solver.
Qed.

(** A key that is no wire key and no attribute name keeps its raw value. *)
Lemma load_pure_unknown_key (fs : list (string * field)) (m parsed : pydict) k :
  k ∉ map wire_name fs -> k ∉ fs.*1 -> load_pure fs (Some m) = inr parsed ->
  parsed !! k = m !! k.
Proof.
  intros Hw Ha H. unfold load_pure in H.
  destruct (load_fields fs m) as [out errs] eqn:E. destruct errs; [|discriminate].
  injection H as <-. destruct (m !! k) as [v|] eqn:Hk.
  - apply lookup_union_Some_l. apply map_lookup_filter_Some_2; done.
  - rewrite lookup_union_r.
    + unfold load_fields in E. pose proof (load_fold_untouched m fs ∅ [] k Ha) as Hu.
      rewrite E in Hu. simpl in Hu. rewrite Hu. apply lookup_empty.
    + apply map_lookup_filter_None_2. left. done.
Qed.

(** A declared field whose attribute name is also a wire key holds its
    deserialised value. *)
Lemma load_pure_declared_value (fs : list (string * field)) (m parsed : pydict) a f raw x :
  NoDup fs.*1 -> (a, f) ∈ fs -> a ∈ map wire_name fs ->
  m !! wire_name (a, f) = Some raw -> deserialize_field (kind f) raw = inr x ->
  load_pure fs (Some m) = inr parsed -> parsed !! a = Some x.
Proof.
  intros Hnd Hin Ha Hraw Hx H. unfold load_pure in H.
  destruct (load_fields fs m) as [out errs] eqn:E. destruct errs; [|discriminate].
  injection H as <-. rewrite lookup_union_r.
  - unfold load_fields in E.
    pose proof (load_fold_value m fs ∅ [] a f raw x Hnd Hin Hraw Hx) as Hv.
    rewrite E in Hv. exact Hv.
  - apply map_lookup_filter_None_2. right. intros y _ Hy. apply Hy. exact Ha.
Qed.

(* ------------------------------------------------------------------ *)
(** ** The validation prefix of the features handlers *)

(** With query values that are strings (as the HTTP triggers deliver
    them), the split step only rewrites [collection], and only for a
    multi-collection schema; [schema.load] then reads the rewritten dict. *)
Lemma load_request_params_run (c : cls) (l : loc) (h : heap) (p0 : pydict) :
  h !! l = Some p0 ->
  (forall v, p0 !! "collection" = Some v -> exists t, v = VStr t) ->
  exists p1, load_request_params c (VDict l) h
             = (<[l := p1]> h, Ret (load_pure (schema_fields c) (Some p1)))
    /\ (forall k, k ≠ "collection" -> p1 !! k = p0 !! k)
    /\ (is_multi_collection c = false -> p1 = p0)
    /\ (is_multi_collection c = true -> forall t, p0 !! "collection" = Some (VStr t) -> t ≠ "" ->
          p1 = <["collection" := VList (map VStr (str_split ","%char t))]> p0).
Proof.
  intros Hl Hstr. unfold load_request_params, split_collection_param.
  destruct (is_multi_collection c) eqn:Hm.
  - destruct (p0 !! "collection") as [v|] eqn:Hc.
    + destruct (Hstr v eq_refl) as [t ->].
      destruct (String.eqb t "") eqn:Ht.
      * apply String.eqb_eq in Ht as ->.
        exists p0. split; [|split; [done|split; [discriminate|]]].
        -- unfold mbind, M_bind, py_get, schema_load. rewrite Hl. simpl.
           unfold dict_get_default; rewrite Hc. simpl. rewrite Hl, insert_id by done. reflexivity.
        -- intros _ t' Ht' Hne. congruence.
      * exists (<["collection" := VList (map VStr (str_split ","%char t))]> p0).
        split; [|split; [|split; [discriminate|]]].
        -- unfold mbind, M_bind, py_get, py_setitem, schema_load. rewrite Hl. simpl.
           unfold dict_get_default; rewrite Hc. simpl. rewrite Ht. simpl. rewrite Hl. simpl.
           rewrite lookup_insert_eq. reflexivity.
        -- intros k Hk. rewrite lookup_insert_ne by congruence. done.
        -- intros _ t' Ht' _. congruence.
    + exists p0. split; [|split; [done|split; [discriminate|]]].
      * unfold mbind, M_bind, py_get, schema_load. rewrite Hl. simpl.
        unfold dict_get_default; rewrite Hc. simpl. rewrite Hl, insert_id by done. reflexivity.
      * intros _ t' Ht'. congruence.
  - exists p0. split; [|split; [done|split; [done|discriminate]]].
    unfold mbind, M_bind, schema_load. simpl. rewrite Hl, insert_id by done. reflexivity.
Qed.

Lemma load_request_params_inv (c : cls) (l : loc) (h h1 : heap) (p0 : pydict) r :
  h !! l = Some p0 ->
  load_request_params c (VDict l) h = (h1, Ret r) ->
  exists p1, h1 !! l = Some p1 /\ r = load_pure (schema_fields c) (Some p1)
    /\ (forall k, k ≠ "collection" -> p1 !! k = p0 !! k)
    /\ (is_multi_collection c = false -> p1 = p0).
Proof.
  intros Hl Hrun. unfold load_request_params, split_collection_param in Hrun.
  destruct (is_multi_collection c) eqn:Hm.
  - unfold mbind, M_bind, py_get, schema_load in Hrun. rewrite Hl in Hrun. simpl in Hrun.
    destruct (truthy (dict_get_default p0 "collection" VNone)).
    + destruct (dict_get_default p0 "collection" VNone) as [| | |t| |]; simpl in Hrun;
        try discriminate.
      rewrite Hl in Hrun. simpl in Hrun. rewrite lookup_insert_eq in Hrun.
      injection Hrun as <- <-.
      eexists. split; [apply lookup_insert_eq|]. split; [reflexivity|]. split; [|discriminate].
      intros k Hk. rewrite lookup_insert_ne by congruence. done.
    + simpl in Hrun. rewrite Hl in Hrun. injection Hrun as <- <-.
      exists p0. repeat split; done.
  - unfold mbind, M_bind, schema_load in Hrun. simpl in Hrun. rewrite Hl in Hrun.
    injection Hrun as <- <-. exists p0. repeat split; done.
Qed.

Lemma map_is_fmap {A B} (f : A -> B) (xs : list A) : map f xs = f <$> xs.
Proof. induction xs as [|x xs IH]; [done|]. simpl. rewrite IH. done. Qed.

Lemma collection_wire_is_collection_field (c : cls) (af : string * field) :
  af ∈ schema_fields c -> wire_name af = "collection" ->
  af = ("collection", mk_field None (FList FString) true).
Proof.
  intros Haf Hw. apply list_elem_of_In in Haf.
  destruct c; vm_compute in Haf; repeat (destruct Haf as [<-|Haf]);
    try (vm_compute in Hw; discriminate); try reflexivity; contradiction.
Qed.

(** ** Partition of the validated parameters *)

(** C3: on a validated request, every declared field present in the
    validated mapping is removed from the forwarded [query_params] and
    passed to the downstream function as a control (keyword) argument; for
    a single-collection schema the control [collection] is
    [route_params.get('collection')], whatever the query holds. *)
Theorem validated_request_partition (c : cls) (data : request) (ngd : downstream)
    (h h1 : heap) (parsed : pydict) :
  is_str (req_method data) "GET" = true ->
  load_request_params c (req_params data) h = (h1, Ret (inr parsed)) ->
  (is_multi_collection c = true \/ exists l r, req_route_params data = VDict l /\ h1 !! l = Some r) ->
  exists fwd ctl,
    construct_features_response data c ngd h
      = (ngd fwd (req_headers data) ctl ≫= fill_attr_placeholder c) h1
    /\ (forall k, k ∈ field_names c -> is_Some (parsed !! k) ->
          fwd !! k = None /\ ctl !! k = parsed !! k)
    /\ (is_multi_collection c = false -> forall l r,
          req_route_params data = VDict l -> h1 !! l = Some r ->
          ctl !! "collection" = Some (dict_get_default r "collection" VNone)).
Proof.
  intros Hget Hload Hrp.
  destruct (control_params_spec c parsed (req_route_params data) h1 Hrp)
    as (fwd & ctl & Hrun & Hin & _ & Hcol).
  exists fwd, ctl. split; [|split].
  - rewrite (features_run_after_validation c data ngd h h1 parsed Hget Hload).
    unfold mbind at 1, M_bind at 1. rewrite Hrun. reflexivity.
  - intros k Hk _. apply Hin. done.
  - exact Hcol.
Qed.

Lemma validated_request_partition_witness :
  (is_str (req_method get_request) "GET" = true
   /\ load_request_params LimitSchema (req_params get_request) partition_witness_heap
      = (partition_witness_run.1, Ret (inr partition_witness_parsed))
   /\ (is_multi_collection LimitSchema = true \/ exists l r,
         req_route_params get_request = VDict l /\ partition_witness_run.1 !! l = Some r))
  /\ exists fwd ctl,
    construct_features_response get_request LimitSchema echo_query_downstream partition_witness_heap
      = (echo_query_downstream fwd (req_headers get_request) ctl
           ≫= fill_attr_placeholder LimitSchema) partition_witness_run.1
    /\ (forall k, k ∈ field_names LimitSchema -> is_Some (partition_witness_parsed !! k) ->
          fwd !! k = None /\ ctl !! k = partition_witness_parsed !! k)
    /\ (is_multi_collection LimitSchema = false -> forall l r,
          req_route_params get_request = VDict l -> partition_witness_run.1 !! l = Some r ->
          ctl !! "collection" = Some (dict_get_default r "collection" VNone)).
Proof.
  assert (H1 : is_str (req_method get_request) "GET" = true) by reflexivity.
  assert (H2 : load_request_params LimitSchema (req_params get_request) partition_witness_heap
               = (partition_witness_run.1, Ret (inr partition_witness_parsed)))
    by (vm_compute; reflexivity).
  assert (H3 : is_multi_collection LimitSchema = true \/ exists l r,
           req_route_params get_request = VDict l /\ partition_witness_run.1 !! l = Some r).
  { right. exists l_path, (<["collection" := VStr "bld-fts-building-4"]> ∅).
    split; [reflexivity | vm_compute; reflexivity]. }
  split; [auto|].
  exact (validated_request_partition LimitSchema get_request echo_query_downstream
           partition_witness_heap partition_witness_run.1 partition_witness_parsed H1 H2 H3).
Defined.

(** ** Splitting of the [collection] parameter *)

(** C4: for a multi-collection schema, a comma-separated [collection]
    query value is written back as a list into the parameter mapping before
    validation, so [collection = "a,b,c"] is validated (and on success
    delivered) as the list [["a"; "b"; "c"]], never as one string. *)
Theorem multi_collection_value_split_before_load (c : cls) (l : loc) (h : heap) (p : pydict) :
  is_multi_collection c = true -> h !! l = Some p ->
  p !! "collection" = Some (VStr "a,b,c") ->
  exists r,
    load_request_params c (VDict l) h
      = (<[l := <["collection" := VList [VStr "a"; VStr "b"; VStr "c"]]> p]> h, Ret r)
    /\ (forall parsed, r = inr parsed ->
          parsed !! "collection" = Some (VList [VStr "a"; VStr "b"; VStr "c"]))
    /\ (forall errs, r = inl errs -> "collection" ∉ errs.*1).
Proof.
  intros Hm Hl Hc.
  destruct (load_request_params_run c l h p Hl) as (p1 & Hrun & _ & _ & Hsplit).
  { intros v Hv. rewrite Hc in Hv. injection Hv as <-. eexists. reflexivity. }
  assert (Hp1 : p1 = <["collection" := VList [VStr "a"; VStr "b"; VStr "c"]]> p).
  { rewrite (Hsplit Hm "a,b,c" Hc ltac:(discriminate)). reflexivity. }
  subst p1. eexists. split; [exact Hrun|].
  destruct (multi_collection_declares_collection c Hm) as (Hf3 & Hnd & _ & Hw3).
  split.
  - intros parsed Hp.
    eapply (load_pure_declared_value (schema_fields c) _ parsed "collection"
              (mk_field None (FList FString) true)
              (VList [VStr "a"; VStr "b"; VStr "c"]) (VList [VStr "a"; VStr "b"; VStr "c"])).
    + unfold field_names in Hnd. rewrite map_is_fmap in Hnd. exact Hnd.
    + eapply list_elem_of_lookup_2. exact Hf3.
    + eapply list_elem_of_lookup_2. exact Hw3.
    + apply lookup_insert_eq.
    + vm_compute. reflexivity.
    + exact Hp.
  - intros errs Herr Hin.
    apply list_elem_of_fmap in Hin as ([w err] & Hw & Hin). simpl in Hw. subst w.
    unfold load_pure in Herr.
    destruct (load_fields (schema_fields c) _) as [out errs'] eqn:E.
    destruct errs' as [|e errs']; [discriminate|]. injection Herr as <-.
    unfold load_fields in E.
    pose proof (load_fold_errors_from_fields
      (<["collection" := VList [VStr "a"; VStr "b"; VStr "c"]]> p) (schema_fields c) ∅ [] "collection" err)
      as Hfrom.
    rewrite E in Hfrom. simpl in Hfrom.
    destruct (Hfrom Hin) as [Hnil|(af & Haf & Hwaf & Hcase)]; [set_solver|].
    rewrite (collection_wire_is_collection_field c af Haf Hwaf) in Hcase.
    rewrite lookup_insert_eq in Hcase.
    destruct Hcase as [[Hn _]|(raw & Hraw & Hd)]; [discriminate|].
    injection Hraw as <-. discriminate.
Qed.

Lemma multi_collection_value_split_before_load_witness :
  (is_multi_collection ColSchema = true /\ split_witness_heap !! l_query = Some (<["collection" := VStr "a,b,c"]> ∅)
   /\ (<["collection" := VStr "a,b,c"]> ∅ : pydict) !! "collection" = Some (VStr "a,b,c"))
  /\ exists r,
    load_request_params ColSchema (VDict l_query) split_witness_heap
      = (<[l_query := <["collection" := VList [VStr "a"; VStr "b"; VStr "c"]]>
                        (<["collection" := VStr "a,b,c"]> ∅)]> split_witness_heap, Ret r)
    /\ (forall parsed, r = inr parsed ->
          parsed !! "collection" = Some (VList [VStr "a"; VStr "b"; VStr "c"]))
    /\ (forall errs, r = inl errs -> "collection" ∉ errs.*1).
Proof.
  assert (H1 : is_multi_collection ColSchema = true) by reflexivity.
  assert (H2 : split_witness_heap !! l_query = Some (<["collection" := VStr "a,b,c"]> ∅))
    by (vm_compute; reflexivity).
  assert (H3 : (<["collection" := VStr "a,b,c"]> ∅ : pydict) !! "collection" = Some (VStr "a,b,c"))
    by (vm_compute; reflexivity).
  split; [auto|].
  exact (multi_collection_value_split_before_load ColSchema l_query split_witness_heap _ H1 H2 H3).
Defined.

(** ** Pass-through of unknown query keys *)

(** X: for every query key [k] that is neither the wire key nor the
    attribute name of a field of the schema, the field loop of validation
    does not depend on [k] at all (so [k] never causes a rejection), and on
    a validated request the raw value of [k] appears unchanged in the
    validated mapping and in the [query_params] passed to the downstream
    function. *)
Theorem unknown_key_passed_through (c : cls) (data : request) (ngd : downstream)
    (h h1 : heap) (l : loc) (p0 parsed : pydict) (k : string) :
  k ∉ wire_names c -> k ∉ field_names c ->
  is_str (req_method data) "GET" = true ->
  req_params data = VDict l -> h !! l = Some p0 ->
  load_request_params c (req_params data) h = (h1, Ret (inr parsed)) ->
  (is_multi_collection c = true \/ exists lr r, req_route_params data = VDict lr /\ h1 !! lr = Some r) ->
  (forall v m, load_fields (schema_fields c) (<[k := v]> m) = load_fields (schema_fields c) (delete k m))
  /\ parsed !! k = p0 !! k
  /\ exists fwd ctl,
       construct_features_response data c ngd h
         = (ngd fwd (req_headers data) ctl ≫= fill_attr_placeholder c) h1
       /\ fwd !! k = p0 !! k.
Proof.
  intros Hw Ha Hget Hparams Hl Hload Hrp.
  assert (Hwf : k ∉ map wire_name (schema_fields c)) by exact Hw.
  assert (Haf : k ∉ (schema_fields c).*1)
    by (unfold field_names in Ha; rewrite map_is_fmap in Ha; exact Ha).
  assert (Hparsed : parsed !! k = p0 !! k).
  { rewrite Hparams in Hload.
    destruct (load_request_params_inv c l h h1 p0 _ Hl Hload) as (p1 & _ & Hr & Hoff & Hsame).
    rewrite (load_pure_unknown_key (schema_fields c) p1 parsed k Hwf Haf (eq_sym Hr)).
    destruct (is_multi_collection c) eqn:Hm.
    - apply Hoff. intros ->. apply Hw.
      destruct (multi_collection_declares_collection c Hm) as (_ & _ & _ & Hw3).
      eapply list_elem_of_lookup_2. exact Hw3.
    - rewrite Hsame; done. }
  split; [|split; [exact Hparsed|]].
  - intros v m. unfold load_fields. apply load_fold_same_reads.
    intros af Hin. assert (wire_name af ≠ k).
    { intros Heq. apply Hwf. rewrite <- Heq. apply list_elem_of_In, in_map, list_elem_of_In. exact Hin. }
    rewrite lookup_insert_ne, lookup_delete_ne by done. reflexivity.
  - destruct (control_params_spec c parsed (req_route_params data) h1 Hrp)
      as (fwd & ctl & Hrun & _ & Hout & _).
    exists fwd, ctl. split.
    + rewrite (features_run_after_validation c data ngd h h1 parsed Hget Hload).
      unfold mbind at 1, M_bind at 1. rewrite Hrun. reflexivity.
    + rewrite Hout by exact Ha. exact Hparsed.
Qed.

Lemma unknown_key_passed_through_witness :
  (("filter" ∉ wire_names GeomSchema) /\ ("filter" ∉ field_names GeomSchema)
   /\ is_str (req_method get_request) "GET" = true
   /\ req_params get_request = VDict l_query
   /\ passthrough_witness_heap !! l_query = Some passthrough_witness_query
   /\ load_request_params GeomSchema (req_params get_request) passthrough_witness_heap
      = (passthrough_witness_run.1, Ret (inr passthrough_witness_parsed))
   /\ (is_multi_collection GeomSchema = true \/ exists lr r,
         req_route_params get_request = VDict lr /\ passthrough_witness_run.1 !! lr = Some r))
  /\ (forall v m, load_fields (schema_fields GeomSchema) (<["filter" := v]> m)
                  = load_fields (schema_fields GeomSchema) (delete "filter" m))
  /\ passthrough_witness_parsed !! "filter" = passthrough_witness_query !! "filter"
  /\ exists fwd ctl,
       construct_features_response get_request GeomSchema echo_query_downstream passthrough_witness_heap
         = (echo_query_downstream fwd (req_headers get_request) ctl
              ≫= fill_attr_placeholder GeomSchema) passthrough_witness_run.1
       /\ fwd !! "filter" = passthrough_witness_query !! "filter".
Proof.
  assert (H1 : "filter" ∉ wire_names GeomSchema)
    by (apply (bool_decide_unpack _); vm_compute; reflexivity).
  assert (H2 : "filter" ∉ field_names GeomSchema)
    by (apply (bool_decide_unpack _); vm_compute; reflexivity).
  assert (H3 : is_str (req_method get_request) "GET" = true) by reflexivity.
  assert (H4 : req_params get_request = VDict l_query) by reflexivity.
  assert (H5 : passthrough_witness_heap !! l_query = Some passthrough_witness_query)
    by (vm_compute; reflexivity).
  assert (H6 : load_request_params GeomSchema (req_params get_request) passthrough_witness_heap
               = (passthrough_witness_run.1, Ret (inr passthrough_witness_parsed)))
    by (vm_compute; reflexivity).
  assert (H7 : is_multi_collection GeomSchema = true \/ exists lr r,
           req_route_params get_request = VDict lr /\ passthrough_witness_run.1 !! lr = Some r).
  { right. exists l_path, (<["collection" := VStr "bld-fts-building-4"]> ∅).
    split; [reflexivity | vm_compute; reflexivity]. }
  split; [tauto|].
  exact (unknown_key_passed_through GeomSchema get_request echo_query_downstream
           passthrough_witness_heap passthrough_witness_run.1 l_query passthrough_witness_query
           passthrough_witness_parsed "filter" H1 H2 H3 H4 H5 H6 H7).
Defined.

(** C5 (code bug): a query key equal to the attribute name of a declared
    field whose wire key differs (e.g. [use_latest_collection],
    [request_limit]) is no declared query key, so [unknown = INCLUDE] keeps
    it with its raw, unvalidated value in the validated mapping -- over the
    converted value of the field itself.  The partition of
    [construct_features_response] then pops it out of [query_params]: the
    downstream function never receives it as a query parameter, and receives
    the raw value instead as the typed control argument of that name. *)
Theorem attribute_name_key_diverted (c : cls) (data : request) (ngd : downstream)
    (h h1 : heap) (l : loc) (p0 parsed : pydict) (af : string * field) (v : pyval) :
  is_str (req_method data) "GET" = true ->
  req_params data = VDict l -> h !! l = Some p0 ->
  load_request_params c (req_params data) h = (h1, Ret (inr parsed)) ->
  (is_multi_collection c = true \/ exists lr r, req_route_params data = VDict lr /\ h1 !! lr = Some r) ->
  af ∈ schema_fields c -> af.1 ∉ wire_names c -> p0 !! af.1 = Some v ->
  parsed !! af.1 = Some v
  /\ exists fwd ctl,
       construct_features_response data c ngd h
         = (ngd fwd (req_headers data) ctl ≫= fill_attr_placeholder c) h1
       /\ fwd !! af.1 = None /\ ctl !! af.1 = Some v.
Proof.
  intros Hget Hparams Hl Hload Hrp Haf Hwn Hv.
  assert (Hparsed : parsed !! af.1 = Some v).
  { rewrite Hparams in Hload.
    destruct (load_request_params_inv c l h h1 p0 _ Hl Hload) as (p1 & _ & Hr & Hoff & Hsame).
    assert (Hp1 : p1 !! af.1 = Some v).
    { destruct (is_multi_collection c) eqn:Hm.
      - rewrite Hoff; [exact Hv|]. intros Heq. apply Hwn. rewrite Heq.
        destruct (multi_collection_declares_collection c Hm) as (_ & _ & _ & Hw3).
        eapply list_elem_of_lookup_2. exact Hw3.
      - rewrite Hsame by done. exact Hv. }
    unfold load_pure in Hr. destruct (load_fields (schema_fields c) p1) as [out errs].
    destruct errs; [|discriminate]. injection Hr as ->.
    apply lookup_union_Some_l. apply map_lookup_filter_Some_2; [exact Hp1|]. exact Hwn. }
  split; [exact Hparsed|].
  destruct (control_params_spec c parsed (req_route_params data) h1 Hrp)
    as (fwd & ctl & Hrun & Hin & _ & _).
  assert (Hf : af.1 ∈ field_names c)
    by (unfold field_names; apply list_elem_of_In, in_map, list_elem_of_In; exact Haf).
  destruct (Hin af.1 Hf) as [Hfwd Hctl].
  exists fwd, ctl. split; [|split; [exact Hfwd|rewrite Hctl; exact Hparsed]].
  rewrite (features_run_after_validation c data ngd h h1 parsed Hget Hload).
  unfold mbind at 1, M_bind at 1. rewrite Hrun. reflexivity.
Qed.

Lemma attribute_name_key_diverted_witness :
  (is_str (req_method get_request) "GET" = true
   /\ req_params get_request = VDict l_query
   /\ diverted_witness_heap !! l_query = Some diverted_witness_query
   /\ load_request_params LimitSchema (req_params get_request) diverted_witness_heap
      = (diverted_witness_run.1, Ret (inr diverted_witness_parsed))
   /\ (is_multi_collection LimitSchema = true \/ exists lr r,
         req_route_params get_request = VDict lr /\ diverted_witness_run.1 !! lr = Some r)
   /\ ("request_limit", mk_field (Some "request-limit") FInteger false) ∈ schema_fields LimitSchema
   /\ ("request_limit" ∉ wire_names LimitSchema)
   /\ diverted_witness_query !! "request_limit" = Some (VStr "abc"))
  /\ diverted_witness_parsed !! "request_limit" = Some (VStr "abc")
  /\ exists fwd ctl,
       construct_features_response get_request LimitSchema echo_query_downstream diverted_witness_heap
         = (echo_query_downstream fwd (req_headers get_request) ctl
              ≫= fill_attr_placeholder LimitSchema) diverted_witness_run.1
       /\ fwd !! "request_limit" = None /\ ctl !! "request_limit" = Some (VStr "abc").
Proof.
  assert (H1 : is_str (req_method get_request) "GET" = true) by reflexivity.
  assert (H2 : req_params get_request = VDict l_query) by reflexivity.
  assert (H3 : diverted_witness_heap !! l_query = Some diverted_witness_query)
    by (vm_compute; reflexivity).
  assert (H4 : load_request_params LimitSchema (req_params get_request) diverted_witness_heap
               = (diverted_witness_run.1, Ret (inr diverted_witness_parsed)))
    by (vm_compute; reflexivity).
  assert (H5 : is_multi_collection LimitSchema = true \/ exists lr r,
           req_route_params get_request = VDict lr /\ diverted_witness_run.1 !! lr = Some r).
  { right. exists l_path, (<["collection" := VStr "bld-fts-building-4"]> ∅).
    split; [reflexivity | vm_compute; reflexivity]. }
  assert (H6 : ("request_limit", mk_field (Some "request-limit") FInteger false)
                 ∈ schema_fields LimitSchema)
    by (apply list_elem_of_In; vm_compute; repeat (first [left; reflexivity | right])).
  assert (H7 : "request_limit" ∉ wire_names LimitSchema)
    by (apply (bool_decide_unpack _); vm_compute; reflexivity).
  assert (H8 : diverted_witness_query !! "request_limit" = Some (VStr "abc"))
    by (vm_compute; reflexivity).
  split; [tauto|].
  exact (attribute_name_key_diverted LimitSchema get_request echo_query_downstream
           diverted_witness_heap diverted_witness_run.1 l_query diverted_witness_query
           diverted_witness_parsed ("request_limit", mk_field (Some "request-limit") FInteger false)
           (VStr "abc") H1 H2 H3 H4 H5 H6 H7 H8).
Defined.

(** ** The latest-collections endpoint *)

(** A GET request whose query and path parameters are dicts: the parameter
    check on the raw query dict comes first, then [schema.load], then the
    choice of downstream function by the path's [collection]. *)
Lemma collections_run (data : request) spec all (h : heap) (l lr : loc) (p r : pydict) :
  is_str (req_method data) "GET" = true ->
  req_params data = VDict l -> h !! l = Some p ->
  req_route_params data = VDict lr -> h !! lr = Some r ->
  construct_collections_response data spec all h =
    if (1 <? size p)%nat || ((size p =? 1)%nat
                             && negb (truthy (dict_get_default p "recent-update-days" VNone)))
    then (h, Ret (error_body 400 "The only supported query parameter is 'recent-update-days'."))
    else match load_pure (schema_fields LatestCollectionsSchema) (Some p) with
         | inl errs => handle_error (Some (validation_error errs)) None 400 h
         | inr parsed =>
             let collection := dict_get_default r "collection" VNone in
             (if truthy collection then spec [collection] parsed else all parsed) h
         end.
Proof.
  intros Hget Hp Hl Hrp Hlr. unfold construct_collections_response. rewrite Hget. cbn [negb].
  unfold mbind, M_bind, py_dict_contents, py_get. rewrite Hp, Hrp, Hl. cbv beta iota zeta.
  rewrite Hl. cbv beta iota zeta.
  destruct ((1 <? size p)%nat || _); [reflexivity|].
  rewrite Hlr. cbv beta iota zeta. unfold schema_load. rewrite Hl.
  destruct (load_pure (schema_fields LatestCollectionsSchema) (Some p)); reflexivity.
Qed.

(** C6: on a GET request to the latest-collections endpoint, a query dict
    with more than one parameter, or with exactly one parameter that is not
    [recent-update-days], is answered with the 400 error
    ["The only supported query parameter is 'recent-update-days'."]
    without validation or a downstream call (the heap is unchanged); an
    empty query dict is accepted and passed to the downstream function as
    [{}]; [{"recent-update-days": "28"}] is accepted and passed on as
    [{recent_update_days: 28}]. *)
Theorem latest_collections_query_check (data : request) spec all (h : heap)
    (l lr : loc) (p r : pydict) :
  is_str (req_method data) "GET" = true ->
  req_params data = VDict l -> h !! l = Some p ->
  req_route_params data = VDict lr -> h !! lr = Some r ->
  let downstream_with parsed :=
    (let collection := dict_get_default r "collection" VNone in
     if truthy collection then spec [collection] parsed else all parsed) h in
  ((1 < size p \/ (size p = 1 /\ p !! "recent-update-days" = None))%nat ->
     construct_collections_response data spec all h
     = (h, Ret (error_body 400 "The only supported query parameter is 'recent-update-days'.")))
  /\ (p = ∅ -> construct_collections_response data spec all h = downstream_with ∅)
  /\ (p = {[ "recent-update-days" := VStr "28" ]} ->
      construct_collections_response data spec all h
      = downstream_with {[ "recent_update_days" := VInt 28 ]}).
Proof.
  intros Hget Hp Hl Hrp Hlr downstream_with.
  rewrite (collections_run data spec all h l lr p r Hget Hp Hl Hrp Hlr).
  split; [|split].
  - intros Hsize.
    assert (Hc : ((1 <? size p)%nat || ((size p =? 1)%nat
                  && negb (truthy (dict_get_default p "recent-update-days" VNone)))) = true).
    { destruct Hsize as [Hgt|[H1 Hnone]].
      - apply orb_true_intro. left. apply Nat.ltb_lt. exact Hgt.
      - apply orb_true_intro. right. unfold dict_get_default. rewrite Hnone, H1. reflexivity. }
    rewrite Hc. reflexivity.
  - intros ->. vm_compute (load_pure _ _). reflexivity.
  - intros ->. vm_compute (load_pure _ _). reflexivity.
Qed.

Lemma latest_collections_query_check_witness :
  let q : pydict := {[ "recent-update-days" := VStr "28" ]} in
  let spec (cs : list pyval) (parsed : pydict) : M pydict := mret parsed in
  let all (parsed : pydict) : M pydict := mret parsed in
  (is_str (req_method get_request) "GET" = true
   /\ req_params get_request = VDict l_query
   /\ collections_witness_heap q !! l_query = Some q
   /\ req_route_params get_request = VDict l_path
   /\ collections_witness_heap q !! l_path = Some {[ "collection" := VStr "bld-fts-building-4" ]})
  /\ (let downstream_with parsed :=
        (let collection := dict_get_default {[ "collection" := VStr "bld-fts-building-4" ]}
                             "collection" VNone in
         if truthy collection then spec [collection] parsed else all parsed)
          (collections_witness_heap q) in
      ((1 < size q \/ (size q = 1 /\ q !! "recent-update-days" = None))%nat ->
         construct_collections_response get_request spec all (collections_witness_heap q)
         = (collections_witness_heap q,
            Ret (error_body 400 "The only supported query parameter is 'recent-update-days'.")))
      /\ (q = ∅ -> construct_collections_response get_request spec all (collections_witness_heap q)
                   = downstream_with ∅)
      /\ (q = {[ "recent-update-days" := VStr "28" ]} ->
          construct_collections_response get_request spec all (collections_witness_heap q)
          = downstream_with {[ "recent_update_days" := VInt 28 ]})).
Proof.
  intros q spec all.
  assert (H1 : is_str (req_method get_request) "GET" = true) by reflexivity.
  assert (H2 : req_params get_request = VDict l_query) by reflexivity.
  assert (H3 : collections_witness_heap q !! l_query = Some q) by (vm_compute; reflexivity).
  assert (H4 : req_route_params get_request = VDict l_path) by reflexivity.
  assert (H5 : collections_witness_heap q !! l_path
               = Some {[ "collection" := VStr "bld-fts-building-4" ]}) by (vm_compute; reflexivity).
  split; [tauto|].
  exact (latest_collections_query_check get_request spec all (collections_witness_heap q)
           l_query l_path q {[ "collection" := VStr "bld-fts-building-4" ]} H1 H2 H3 H4 H5).
Defined.

(** C10: on a GET request to the latest-collections endpoint whose query
    dict is exactly [{"recent-update-days": s}], an empty [s] is rejected by
    the parameter check with the 400 error
    ["The only supported query parameter is 'recent-update-days'."]
    (the value is falsy), whereas a non-empty [s] passes the check and goes
    on to schema validation and the downstream call. *)
Theorem empty_recent_update_days_rejected (data : request) spec all (h : heap)
    (l lr : loc) (r : pydict) (s : string) :
  is_str (req_method data) "GET" = true ->
  req_params data = VDict l -> h !! l = Some {[ "recent-update-days" := VStr s ]} ->
  req_route_params data = VDict lr -> h !! lr = Some r ->
  (s = "" ->
     construct_collections_response data spec all h
     = (h, Ret (error_body 400 "The only supported query parameter is 'recent-update-days'.")))
  /\ (s ≠ "" ->
      construct_collections_response data spec all h
      = match load_pure (schema_fields LatestCollectionsSchema)
                (Some {[ "recent-update-days" := VStr s ]}) with
        | inl errs => handle_error (Some (validation_error errs)) None 400 h
        | inr parsed =>
            let collection := dict_get_default r "collection" VNone in
            (if truthy collection then spec [collection] parsed else all parsed) h
        end).
Proof.
  intros Hget Hp Hl Hrp Hlr.
  rewrite (collections_run data spec all h l lr _ r Hget Hp Hl Hrp Hlr).
  rewrite map_size_singleton. unfold dict_get_default. rewrite lookup_singleton_eq.
  cbn [truthy]. split.
  - intros ->. reflexivity.
  - intros Hs. apply String.eqb_neq in Hs. rewrite Hs. reflexivity.
Qed.

Lemma empty_recent_update_days_rejected_witness :
  let q : pydict := {[ "recent-update-days" := VStr "" ]} in
  let spec (cs : list pyval) (parsed : pydict) : M pydict := mret parsed in
  let all (parsed : pydict) : M pydict := mret parsed in
  (is_str (req_method get_request) "GET" = true
   /\ req_params get_request = VDict l_query
   /\ collections_witness_heap q !! l_query = Some q
   /\ req_route_params get_request = VDict l_path
   /\ collections_witness_heap q !! l_path = Some {[ "collection" := VStr "bld-fts-building-4" ]})
  /\ ("" = "" ->
      construct_collections_response get_request spec all (collections_witness_heap q)
      = (collections_witness_heap q,
         Ret (error_body 400 "The only supported query parameter is 'recent-update-days'.")))
  /\ ("" ≠ "" ->
      construct_collections_response get_request spec all (collections_witness_heap q)
      = match load_pure (schema_fields LatestCollectionsSchema) (Some q) with
        | inl errs => handle_error (Some (validation_error errs)) None 400 (collections_witness_heap q)
        | inr parsed =>
            let collection := dict_get_default {[ "collection" := VStr "bld-fts-building-4" ]}
                                "collection" VNone in
            (if truthy collection then spec [collection] parsed else all parsed)
              (collections_witness_heap q)
        end).
Proof.
  intros q spec all.
  assert (H1 : is_str (req_method get_request) "GET" = true) by reflexivity.
  assert (H2 : req_params get_request = VDict l_query) by reflexivity.
  assert (H3 : collections_witness_heap q !! l_query = Some q) by (vm_compute; reflexivity).
  assert (H4 : req_route_params get_request = VDict l_path) by reflexivity.
  assert (H5 : collections_witness_heap q !! l_path
               = Some {[ "collection" := VStr "bld-fts-building-4" ]}) by (vm_compute; reflexivity).
  split; [tauto|].
  exact (empty_recent_update_days_rejected get_request spec all (collections_witness_heap q)
           l_query l_path {[ "collection" := VStr "bld-fts-building-4" ]} "" H1 H2 H3 H4 H5).
Defined.

(** ** Boolean coercion *)

Lemma boolean_sets_disjoint (s : string) : s ∈ boolean_truthy -> s ∉ boolean_falsy.
Proof.
  intros H. apply list_elem_of_In in H. simpl in H.
  repeat (destruct H as [<-|H]; [apply (bool_decide_unpack _); vm_compute; reflexivity|]).
  contradiction.
Qed.

Lemma features_validation_error (c : cls) (data : request) (ngd : downstream)
    (h h1 : heap) errs :
  is_str (req_method data) "GET" = true ->
  load_request_params c (req_params data) h = (h1, Ret (inl errs)) ->
  construct_features_response data c ngd h
  = (h1, Ret (error_body 400 (exn_str (validation_error errs)))).
Proof.
  intros Hget Hload. unfold construct_features_response. rewrite Hget. simpl.
  unfold mbind at 1, M_bind at 1. rewrite Hload. reflexivity.
Qed.

Lemma schema_field_names_nodup (c : cls) : NoDup (schema_fields c).*1.
Proof. destruct c; apply (bool_decide_unpack _); vm_compute; reflexivity. Qed.

Lemma schema_wire_names_nodup (c : cls) : NoDup (wire_names c).
Proof. destruct c; apply (bool_decide_unpack _); vm_compute; reflexivity. Qed.

Lemma nodup_map_same {A B} (f : A -> B) (xs : list A) (x y : A) :
  NoDup (map f xs) -> x ∈ xs -> y ∈ xs -> f x = f y -> x = y.
Proof.
  induction xs as [|z xs IH]; intros Hnd Hx Hy Hf; [set_solver|].
  simpl in Hnd. apply NoDup_cons in Hnd as [Hz Hnd].
  apply elem_of_cons in Hx as [->|Hx]; apply elem_of_cons in Hy as [->|Hy]; try done.
  - exfalso. apply Hz. rewrite Hf. apply list_elem_of_In, in_map, list_elem_of_In. done.
  - exfalso. apply Hz. rewrite <- Hf. apply list_elem_of_In, in_map, list_elem_of_In. done.
  - apply IH; done.
Qed.

Lemma collection_attr_is_collection_field (c : cls) (af : string * field) :
  af ∈ schema_fields c -> af.1 = "collection" ->
  af = ("collection", mk_field None (FList FString) true).
Proof.
  intros Haf Ha. apply list_elem_of_In in Haf.
  destruct c; vm_compute in Haf; repeat (destruct Haf as [<-|Haf]);
    try (vm_compute in Ha; discriminate); try reflexivity; contradiction.
Qed.

(** Only the [collection] field is named [collection], as attribute name
    or as wire key. *)
Lemma non_collection_field_names (c : cls) (af : string * field) :
  af ∈ schema_fields c -> kind af.2 ≠ FList FString ->
  af.1 ≠ "collection" /\ wire_name af ≠ "collection".
Proof.
  intros Haf Hk. split; intros Heq.
  - rewrite (collection_attr_is_collection_field c af Haf Heq) in Hk. done.
  - rewrite (collection_wire_is_collection_field c af Haf Heq) in Hk. done.
Qed.

(** A declared field read with a valid raw value, when the input does not
    also hold its attribute name, contributes no error to a failed load and
    its converted value to a successful one. *)
Lemma load_pure_field_loaded (fs : list (string * field)) (m : pydict) af raw x :
  NoDup fs.*1 -> NoDup (map wire_name fs) -> af ∈ fs ->
  m !! wire_name af = Some raw -> deserialize_field (kind af.2) raw = inr x ->
  m !! af.1 = None ->
  match load_pure fs (Some m) with
  | inl errs => wire_name af ∉ errs.*1
  | inr parsed => parsed !! af.1 = Some x
  end.
Proof.
  intros Hnd Hndw Hin Hraw Hx Ha. unfold load_pure.
  destruct (load_fields fs m) as [out errs] eqn:E. unfold load_fields in E.
  destruct errs as [|e errs].
  - rewrite lookup_union_r.
    + destruct af as [a f].
      pose proof (load_fold_value m fs ∅ [] a f raw x Hnd Hin Hraw Hx) as Hv.
      rewrite E in Hv. exact Hv.
    + apply map_lookup_filter_None_2. left. exact Ha.
  - intros Hw. apply list_elem_of_fmap in Hw as ([w err] & Hw & Hwe). simpl in Hw. subst w.
    pose proof (load_fold_errors_from_fields m fs ∅ [] (wire_name af) err) as Hsrc.
    rewrite E in Hsrc. simpl in Hsrc.
    destruct (Hsrc Hwe) as [Hnil|(af' & Hin' & Hw' & Hcase)]; [set_solver|].
    rewrite (nodup_map_same wire_name fs af' af Hndw Hin' Hin Hw') in Hcase.
    destruct Hcase as [[Hnone _]|(raw' & Hraw' & Herr)]; [congruence|].
    rewrite Hraw in Hraw'. injection Hraw' as <-. congruence.
Qed.

(** A boolean field given a raw string that marshmallow coerces to [b]
    (and no raw value under its attribute name) is held as [b] by the
    validated mapping, and reaches the downstream function as the control
    argument of that name; if validation fails, it is because of other
    fields. *)
Lemma boolean_field_loaded (c : cls) (data : request) (ngd : downstream) (h : heap)
    (l : loc) (p0 : pydict) (af : string * field) (s : string) (b : bool) :
  is_str (req_method data) "GET" = true ->
  req_params data = VDict l -> h !! l = Some p0 ->
  (forall v, p0 !! "collection" = Some v -> exists t, v = VStr t) ->
  af ∈ schema_fields c -> kind af.2 = FBoolean ->
  p0 !! wire_name af = Some (VStr s) -> p0 !! af.1 = None ->
  deserialize_boolean (VStr s) = Some b ->
  exists h1 r, load_request_params c (req_params data) h = (h1, Ret r)
    /\ match r with
       | inl errs => wire_name af ∉ errs.*1
       | inr parsed => parsed !! af.1 = Some (VBool b)
           /\ ((is_multi_collection c = true
                \/ exists lr rt, req_route_params data = VDict lr /\ h1 !! lr = Some rt) ->
               exists fwd ctl, construct_features_response data c ngd h
                 = (ngd fwd (req_headers data) ctl ≫= fill_attr_placeholder c) h1
                 /\ ctl !! af.1 = Some (VBool b))
       end.
Proof.
  intros Hget Hparams Hl Hstr Haf Hkind Hraw Hattr Hb.
  destruct (load_request_params_run c l h p0 Hl Hstr) as (p1 & Hrun & Hoff & _ & _).
  destruct (non_collection_field_names c af Haf) as [Ha Hw]; [rewrite Hkind; discriminate|].
  assert (Hraw1 : p1 !! wire_name af = Some (VStr s)) by (rewrite Hoff by done; exact Hraw).
  assert (Hattr1 : p1 !! af.1 = None) by (rewrite Hoff by done; exact Hattr).
  assert (Hd : deserialize_field (kind af.2) (VStr s) = inr (VBool b))
    by (rewrite Hkind; cbn [deserialize_field deserialize_scalar]; rewrite Hb; reflexivity).
  pose proof (load_pure_field_loaded (schema_fields c) p1 af _ _
                (schema_field_names_nodup c) (schema_wire_names_nodup c) Haf Hraw1 Hd Hattr1) as Hlp.
  rewrite <- Hparams in Hrun.
  exists (<[l := p1]> h), (load_pure (schema_fields c) (Some p1)). split; [exact Hrun|].
  destruct (load_pure (schema_fields c) (Some p1)) as [errs|parsed] eqn:E; [exact Hlp|].
  split; [exact Hlp|]. intros Hrp.
  destruct (control_params_spec c parsed (req_route_params data) (<[l := p1]> h) Hrp)
    as (fwd & ctl & Hcp & Hin & _ & _).
  exists fwd, ctl. split.
  - rewrite (features_run_after_validation c data ngd h _ parsed Hget Hrun).
    unfold mbind at 1, M_bind at 1. rewrite Hcp. reflexivity.
  - rewrite <- Hlp. apply Hin. unfold field_names. apply list_elem_of_In, in_map, list_elem_of_In.
    exact Haf.
Qed.

(** C8 (amended): a boolean field coerces a string to [True] exactly when
    it is one of marshmallow's truthy strings
    [t T true True TRUE on On ON y Y yes Yes YES 1] and to [False] exactly
    when it is one of the falsy strings
    [f F false False FALSE off Off OFF n N no No NO 0]; any other string
    fails coercion.  End to end, for a declared boolean field given a raw
    string [s] under its query key: if [s] is truthy (resp. falsy) and the
    query does not also carry the field's attribute name as a key, the
    validated mapping of [schema.load] holds [True] (resp. [False]) under
    the attribute name, the field contributes no validation error, and the
    downstream function receives that boolean as the control argument; if
    [s] is neither, the request is answered with a 400 error ([errorSource]
    ["Catalyst Wrapper"]) whose validation errors hold the field's wire key
    with ["Not a valid boolean."], before any downstream call. *)
Theorem boolean_field_coercion (c : cls) (data : request) (ngd : downstream) (h : heap)
    (l : loc) (p0 : pydict) (af : string * field) (s : string) :
  is_str (req_method data) "GET" = true ->
  req_params data = VDict l -> h !! l = Some p0 ->
  (forall v, p0 !! "collection" = Some v -> exists t, v = VStr t) ->
  af ∈ schema_fields c -> kind af.2 = FBoolean ->
  p0 !! wire_name af = Some (VStr s) ->
  (forall t, deserialize_field FBoolean (VStr t) = inr (VBool true) <-> t ∈ boolean_truthy)
  /\ (forall t, deserialize_field FBoolean (VStr t) = inr (VBool false) <-> t ∈ boolean_falsy)
  /\ (forall t, t ∉ boolean_truthy -> t ∉ boolean_falsy ->
        deserialize_field FBoolean (VStr t) = inl (EMsgs ["Not a valid boolean."]))
  /\ (forall b : bool, (if b then s ∈ boolean_truthy else s ∈ boolean_falsy) -> p0 !! af.1 = None ->
        exists h1 r, load_request_params c (req_params data) h = (h1, Ret r)
          /\ match r with
             | inl errs => wire_name af ∉ errs.*1
             | inr parsed => parsed !! af.1 = Some (VBool b)
                 /\ ((is_multi_collection c = true
                      \/ exists lr rt, req_route_params data = VDict lr /\ h1 !! lr = Some rt) ->
                     exists fwd ctl, construct_features_response data c ngd h
                       = (ngd fwd (req_headers data) ctl ≫= fill_attr_placeholder c) h1
                       /\ ctl !! af.1 = Some (VBool b))
             end)
  /\ (s ∉ boolean_truthy -> s ∉ boolean_falsy ->
        exists h' errs, construct_features_response data c ngd h
                          = (h', Ret (error_body 400 (exn_str (validation_error errs))))
          /\ (wire_name af, EMsgs ["Not a valid boolean."]) ∈ errs).
Proof.
  intros Hget Hparams Hl Hstr Haf Hkind Hraw.
  assert (Hinvalid : forall t, t ∉ boolean_truthy -> t ∉ boolean_falsy ->
            deserialize_field FBoolean (VStr t) = inl (EMsgs ["Not a valid boolean."])).
  { intros t Ht Hf. cbn. rewrite !bool_decide_false by done. reflexivity. }
  split; [|split; [|split; [exact Hinvalid|split]]].
  - intros t. cbn. case_bool_decide as Ht; [tauto|].
    case_bool_decide as Hf; split; intros H; try discriminate; contradiction.
  - intros t. cbn. case_bool_decide as Ht.
    + split; intros H; [discriminate|]. exfalso. exact (boolean_sets_disjoint t Ht H).
    + case_bool_decide as Hf; split; intros H; try discriminate; done.
  - intros b Hs Hattr. apply (boolean_field_loaded c data ngd h l p0 af s b); try done.
    destruct b; cbn.
    + rewrite bool_decide_true by exact Hs. reflexivity.
    + rewrite bool_decide_false by (intros Ht; exact (boolean_sets_disjoint s Ht Hs)).
      rewrite bool_decide_true by exact Hs. reflexivity.
  - intros Hnt Hnf.
    destruct (load_request_params_run c l h p0 Hl Hstr) as (p1 & Hrun & Hoff & _ & _).
    destruct (non_collection_field_names c af Haf) as [_ Hw]; [rewrite Hkind; discriminate|].
    assert (Hraw1 : p1 !! wire_name af = Some (VStr s)) by (rewrite Hoff by done; exact Hraw).
    assert (Hd : deserialize_field (kind af.2) (VStr s) = inl (EMsgs ["Not a valid boolean."]))
      by (rewrite Hkind; apply Hinvalid; done).
    pose proof (load_fold_error_recorded p1 (schema_fields c) ∅ [] af _ _ Haf Hraw1 Hd) as Herr.
    unfold load_pure in Hrun. unfold load_fields in Hrun.
    destruct (fold_left (load_step p1) (schema_fields c) (∅, [])) as [out errs] eqn:E.
    simpl in Herr. destruct errs as [|e errs]; [set_solver|].
    rewrite <- Hparams in Hrun.
    exists (<[l := p1]> h), (e :: errs). split; [|exact Herr].
    exact (features_validation_error c data ngd h _ _ Hget Hrun).
Qed.

Lemma boolean_field_coercion_witness :
  (is_str (req_method get_request) "GET" = true
   /\ req_params get_request = VDict l_query
   /\ lambda_heap boolean_witness_query !! l_query = Some boolean_witness_query
   /\ (forall v, boolean_witness_query !! "collection" = Some v -> exists t, v = VStr t)
   /\ ("use_latest_collection", mk_field (Some "use-latest-collection") FBoolean false)
        ∈ schema_fields GeomSchema
   /\ kind (mk_field (Some "use-latest-collection") FBoolean false) = FBoolean
   /\ boolean_witness_query !! wire_name ("use_latest_collection",
          mk_field (Some "use-latest-collection") FBoolean false) = Some (VStr "maybe"))
  /\ (forall t, deserialize_field FBoolean (VStr t) = inr (VBool true) <-> t ∈ boolean_truthy)
  /\ (forall t, deserialize_field FBoolean (VStr t) = inr (VBool false) <-> t ∈ boolean_falsy)
  /\ (forall t, t ∉ boolean_truthy -> t ∉ boolean_falsy ->
        deserialize_field FBoolean (VStr t) = inl (EMsgs ["Not a valid boolean."]))
  /\ (forall b : bool, (if b then "maybe" ∈ boolean_truthy else "maybe" ∈ boolean_falsy) ->
        boolean_witness_query !! "use_latest_collection" = None ->
        exists h1 r, load_request_params GeomSchema (req_params get_request)
                       (lambda_heap boolean_witness_query) = (h1, Ret r)
          /\ match r with
             | inl errs => "use-latest-collection" ∉ errs.*1
             | inr parsed => parsed !! "use_latest_collection" = Some (VBool b)
                 /\ ((is_multi_collection GeomSchema = true
                      \/ exists lr rt, req_route_params get_request = VDict lr /\ h1 !! lr = Some rt) ->
                     exists fwd ctl, construct_features_response get_request GeomSchema
                                       echo_query_downstream (lambda_heap boolean_witness_query)
                       = (echo_query_downstream fwd (req_headers get_request) ctl
                            ≫= fill_attr_placeholder GeomSchema) h1
                       /\ ctl !! "use_latest_collection" = Some (VBool b))
             end)
  /\ ("maybe" ∉ boolean_truthy -> "maybe" ∉ boolean_falsy ->
        exists h' errs, construct_features_response get_request GeomSchema echo_query_downstream
                          (lambda_heap boolean_witness_query)
                          = (h', Ret (error_body 400 (exn_str (validation_error errs))))
          /\ ("use-latest-collection", EMsgs ["Not a valid boolean."]) ∈ errs).
Proof.
  assert (H1 : is_str (req_method get_request) "GET" = true) by reflexivity.
  assert (H2 : req_params get_request = VDict l_query) by reflexivity.
  assert (H3 : lambda_heap boolean_witness_query !! l_query = Some boolean_witness_query)
    by (vm_compute; reflexivity).
  assert (H4 : forall v, boolean_witness_query !! "collection" = Some v -> exists t, v = VStr t)
    by (intros v Hv; vm_compute in Hv; discriminate).
  assert (H5 : ("use_latest_collection", mk_field (Some "use-latest-collection") FBoolean false)
                 ∈ schema_fields GeomSchema)
    by (apply list_elem_of_In; vm_compute; repeat (first [left; reflexivity | right])).
  assert (H6 : kind (mk_field (Some "use-latest-collection") FBoolean false) = FBoolean)
    by reflexivity.
  assert (H7 : boolean_witness_query !! wire_name ("use_latest_collection",
                 mk_field (Some "use-latest-collection") FBoolean false) = Some (VStr "maybe"))
    by (vm_compute; reflexivity).
  split; [tauto|].
  exact (boolean_field_coercion GeomSchema get_request echo_query_downstream
           (lambda_heap boolean_witness_query) l_query boolean_witness_query
           ("use_latest_collection", mk_field (Some "use-latest-collection") FBoolean false) "maybe"
           H1 H2 H3 H4 H5 H6 H7).
Defined.

(* ------------------------------------------------------------------ *)
(** * Further properties of the code *)

(** ** Splitting on one character *)

Lemma str_split_not_nil (c : ascii) (s : string) : str_split c s ≠ [].
Proof.
  induction s as [|x r IH]; simpl; [discriminate|].
  destruct (Ascii.eqb x c); [discriminate|]. destruct (str_split c r); discriminate.
Qed.

Lemma str_join_cons_char (sep : string) (x : ascii) (p : string) (ps : list string) :
  str_join sep (String x p :: ps) = String x (str_join sep (p :: ps)).
Proof. destruct ps; reflexivity. Qed.

Lemma str_join_split (c : ascii) (s : string) :
  str_join (String c EmptyString) (str_split c s) = s.
Proof.
  induction s as [|x r IH]; [reflexivity|]. simpl.
  pose proof (str_split_not_nil c r) as Hne.
  destruct (Ascii.eqb x c) eqn:Hx.
  - apply Ascii.eqb_eq in Hx. subst x.
    destruct (str_split c r) as [|p ps]; [contradiction|].
    change (str_join (String c "") ("" :: p :: ps))
      with ("" ++ String c "" ++ str_join (String c "") (p :: ps)).
    rewrite IH. reflexivity.
  - destruct (str_split c r) as [|p ps]; [contradiction|].
    rewrite str_join_cons_char, IH. reflexivity.
Qed.

Lemma str_split_pieces (c : ascii) (s : string) :
  forall p, p ∈ str_split c s -> c ∉ list_ascii_of_string p.
Proof.
  induction s as [|x r IH]; simpl; intros p Hp.
  - apply list_elem_of_singleton in Hp. subst p. simpl. apply not_elem_of_nil.
  - destruct (Ascii.eqb x c) eqn:Hx.
    + apply elem_of_cons in Hp as [->|Hp]; [apply not_elem_of_nil|]. apply IH. exact Hp.
    + destruct (str_split c r) as [|q qs] eqn:E.
      * apply list_elem_of_singleton in Hp. subst p. simpl.
        apply not_elem_of_cons. split; [|apply not_elem_of_nil].
        intros ->. rewrite Ascii.eqb_refl in Hx. discriminate.
      * apply elem_of_cons in Hp as [->|Hp].
        -- simpl. apply not_elem_of_cons. split.
           ++ intros ->. rewrite Ascii.eqb_refl in Hx. discriminate.
           ++ apply IH. left.
        -- apply IH. right. exact Hp.
Qed.

Lemma str_app_nil_r (s : string) : s ++ "" = s.
Proof.
  induction s as [|x s IH]; [reflexivity|].
  change (String x (s ++ "") = String x s). rewrite IH. reflexivity.
Qed.

Lemma list_ascii_of_string_app (a b : string) :
  list_ascii_of_string (a ++ b) = (list_ascii_of_string a ++ list_ascii_of_string b)%list.
Proof.
  induction a as [|x a IH]; [reflexivity|].
  change (x :: list_ascii_of_string (a ++ b) = x :: (list_ascii_of_string a ++ list_ascii_of_string b))%list.
  rewrite IH. reflexivity.
Qed.

(** X: [remove_query_params] keeps exactly the part of the URL before its
    first [?]: the result contains no [?], the URL is the result followed
    by nothing or by a [?] and the rest, and removing again changes
    nothing. *)
Theorem remove_query_params_prefix (url : string) :
  let r := remove_query_params url in
  ("?"%char ∉ list_ascii_of_string r)
  /\ (exists rest, url = r ++ rest /\ (rest = "" \/ exists q, rest = String "?" q))
  /\ remove_query_params r = r.
Proof.
  intros r.
  assert (Hr : ("?"%char ∉ list_ascii_of_string r)
               /\ exists rest, url = r ++ rest /\ (rest = "" \/ exists q, rest = String "?" q)).
  { unfold r, remove_query_params. case_bool_decide as Hq.
    - pose proof (str_join_split "?"%char url) as Hj.
      pose proof (str_split_pieces "?"%char url) as Hp.
      destruct (str_split "?"%char url) as [|p ps] eqn:E;
        [exfalso; exact (str_split_not_nil "?"%char url E)|].
      split; [apply Hp; left|].
      destruct ps as [|p' ps].
      + exists "". split; [|left; reflexivity]. rewrite <- Hj. simpl. rewrite str_app_nil_r. reflexivity.
      + exists (String "?" (str_join "?" (p' :: ps))). split; [|right; eexists; reflexivity].
        rewrite <- Hj at 1. reflexivity.
    - split; [exact Hq|]. exists "". split; [|left; reflexivity].
      rewrite str_app_nil_r. reflexivity. }
  destruct Hr as [Hno Hrest]. split; [exact Hno|]. split; [exact Hrest|].
  unfold remove_query_params at 1. rewrite bool_decide_false by exact Hno. reflexivity.
Qed.

Lemma remove_query_params_prefix_witness :
  remove_query_params "example.com/features/items?key=abc" = "example.com/features/items"
  /\ let r := remove_query_params "example.com/features/items?key=abc" in
     ("?"%char ∉ list_ascii_of_string r)
     /\ (exists rest, "example.com/features/items?key=abc" = r ++ rest
           /\ (rest = "" \/ exists q, rest = String "?" q))
     /\ remove_query_params r = r.
Proof.
  split; [vm_compute; reflexivity|].
  exact (remove_query_params_prefix "example.com/features/items?key=abc").
Defined.

(** X: the in-place split of a non-empty [collection] value is lossless:
    the dict's [collection] entry becomes a list of strings none of which
    contains a comma and whose [','.join] is the original value; no other
    entry and no other object changes. *)
Theorem collection_split_lossless (l : loc) (h : heap) (p : pydict) (s : string) :
  h !! l = Some p -> p !! "collection" = Some (VStr s) -> s ≠ "" ->
  exists xs,
    split_collection_param true (VDict l) h
      = (<[l := <["collection" := VList (map VStr xs)]> p]> h, Ret tt)
    /\ str_join "," xs = s
    /\ (forall x, x ∈ xs -> ","%char ∉ list_ascii_of_string x).
Proof.
  intros Hl Hc Hs. exists (str_split ","%char s). split; [|split].
  - unfold split_collection_param, mbind, M_bind, py_get. rewrite Hl. cbv beta iota.
    unfold dict_get_default. rewrite Hc. cbn [truthy].
    apply String.eqb_neq in Hs. rewrite Hs. cbn [negb]. unfold py_setitem. rewrite Hl. reflexivity.
  - exact (str_join_split ","%char s).
  - exact (str_split_pieces ","%char s).
Qed.

Lemma collection_split_lossless_witness :
  ((<[4%positive := <["collection" := VStr "a,b"]> ∅]> ∅ : heap) !! 4%positive
     = Some (<["collection" := VStr "a,b"]> ∅)
   /\ (<["collection" := VStr "a,b"]> ∅ : pydict) !! "collection" = Some (VStr "a,b")
   /\ "a,b" ≠ "")
  /\ exists xs,
    split_collection_param true (VDict 4%positive) (<[4%positive := <["collection" := VStr "a,b"]> ∅]> ∅)
      = (<[4%positive := <["collection" := VList (map VStr xs)]> (<["collection" := VStr "a,b"]> ∅)]>
           (<[4%positive := <["collection" := VStr "a,b"]> ∅]> ∅), Ret tt)
    /\ str_join "," xs = "a,b"
    /\ (forall x, x ∈ xs -> ","%char ∉ list_ascii_of_string x).
Proof.
  assert (H1 : (<[4%positive := <["collection" := VStr "a,b"]> ∅]> ∅ : heap) !! 4%positive
                 = Some (<["collection" := VStr "a,b"]> ∅)) by (vm_compute; reflexivity).
  assert (H2 : (<["collection" := VStr "a,b"]> ∅ : pydict) !! "collection" = Some (VStr "a,b"))
    by (vm_compute; reflexivity).
  assert (H3 : "a,b" ≠ "") by discriminate.
  split; [tauto|].
  exact (collection_split_lossless 4%positive _ _ "a,b" H1 H2 H3).
Defined.

(** ** Missing or empty [collection] on a multi-collection endpoint *)

Lemma load_fold_missing_recorded (m : pydict) (fs : list (string * field)) o0 e0 af :
  af ∈ fs -> m !! wire_name af = None -> required af.2 = true ->
  (wire_name af, EMsgs ["Missing data for required field."]) ∈ (fold_left (load_step m) fs (o0, e0)).2.
Proof.
  revert o0 e0. induction fs as [|af' fs IH]; intros o0 e0 Hin Hraw Hreq; [set_solver|].
  cbn [fold_left]. apply elem_of_cons in Hin as [->|Hin].
  - rewrite load_step_eq, Hraw, Hreq. apply load_fold_errors_grow. set_solver.
  - destruct (load_step m (o0, e0) af') as [o1 e1]. apply IH; done.
Qed.

(** X: on a multi-collection endpoint, a query without a [collection]
    parameter, or with an empty one (which is not split), fails validation:
    the answer is a 400 error body, nothing is written to the query dict,
    the downstream function is not called, and the error messages hold
    [collection: ['Missing data for required field.']] or
    [collection: ['Not a valid list.']] respectively. *)
Theorem multi_collection_missing_value_rejected (c : cls) (data : request) (ngd : downstream)
    (h : heap) (l : loc) (p : pydict) :
  is_multi_collection c = true -> is_str (req_method data) "GET" = true ->
  req_params data = VDict l -> h !! l = Some p ->
  p !! "collection" = None \/ p !! "collection" = Some (VStr "") ->
  exists errs msg,
    construct_features_response data c ngd h
      = (h, Ret (error_body 400 (exn_str (validation_error errs))))
    /\ ("collection", EMsgs [msg]) ∈ errs
    /\ (p !! "collection" = None -> msg = "Missing data for required field.")
    /\ (p !! "collection" = Some (VStr "") -> msg = "Not a valid list.").
Proof.
  intros Hm Hget Hp Hl Hcase.
  assert (Hrun : load_request_params c (VDict l) h = (h, Ret (load_pure (schema_fields c) (Some p)))).
  { unfold load_request_params, split_collection_param. rewrite Hm.
    unfold mbind, M_bind, py_get. rewrite Hl. cbv beta iota.
    unfold dict_get_default. destruct Hcase as [Hc|Hc]; rewrite Hc; cbn;
      unfold schema_load; rewrite Hl; reflexivity. }
  destruct (multi_collection_declares_collection c Hm) as (Hf3 & _ & _ & _).
  set (af := ("collection", mk_field None (FList FString) true)).
  assert (Haf : af ∈ schema_fields c) by (eapply list_elem_of_lookup_2; exact Hf3).
  set (msg := match p !! "collection" with
              | None => "Missing data for required field."
              | _ => "Not a valid list." end).
  assert (Herr : (wire_name af, EMsgs [msg])
                   ∈ (fold_left (load_step p) (schema_fields c) (∅, [])).2).
  { unfold msg. destruct Hcase as [Hc|Hc]; rewrite Hc.
    - apply load_fold_missing_recorded; [exact Haf | exact Hc | reflexivity].
    - eapply load_fold_error_recorded; [exact Haf | exact Hc | reflexivity]. }
  unfold load_pure, load_fields in Hrun.
  destruct (fold_left (load_step p) (schema_fields c) (∅, [])) as [out errs] eqn:E.
  simpl in Herr. destruct errs as [|e errs']; [set_solver|].
  exists (e :: errs'), msg. split; [|split; [exact Herr|split]].
  - apply features_validation_error; [exact Hget|]. rewrite Hp. exact Hrun.
  - intros Hc. unfold msg. rewrite Hc. reflexivity.
  - intros Hc. unfold msg. rewrite Hc. reflexivity.
Qed.

Lemma multi_collection_missing_value_rejected_witness :
  (is_multi_collection ColSchema = true /\ is_str (req_method get_request) "GET" = true
   /\ req_params get_request = VDict l_query
   /\ lambda_heap ∅ !! l_query = Some ∅
   /\ ((∅ : pydict) !! "collection" = None \/ (∅ : pydict) !! "collection" = Some (VStr "")))
  /\ exists errs msg,
    construct_features_response get_request ColSchema echo_query_downstream (lambda_heap ∅)
      = (lambda_heap ∅, Ret (error_body 400 (exn_str (validation_error errs))))
    /\ ("collection", EMsgs [msg]) ∈ errs
    /\ ((∅ : pydict) !! "collection" = None -> msg = "Missing data for required field.")
    /\ ((∅ : pydict) !! "collection" = Some (VStr "") -> msg = "Not a valid list.").
Proof.
  assert (H1 : is_multi_collection ColSchema = true) by reflexivity.
  assert (H2 : is_str (req_method get_request) "GET" = true) by reflexivity.
  assert (H3 : req_params get_request = VDict l_query) by reflexivity.
  assert (H4 : lambda_heap ∅ !! l_query = Some ∅) by (vm_compute; reflexivity).
  assert (H5 : (∅ : pydict) !! "collection" = None \/ (∅ : pydict) !! "collection" = Some (VStr ""))
    by (left; reflexivity).
  split; [tauto|].
  exact (multi_collection_missing_value_rejected ColSchema get_request echo_query_downstream
           (lambda_heap ∅) l_query ∅ H1 H2 H3 H4 H5).
Defined.

(** ** The partition of the validated parameters is lossless *)

(** X: the split of the validated mapping into the forwarded
    [query_params] and the control parameters loses and duplicates
    nothing: the two parts have disjoint keys and their union is the
    validated mapping, and every control key is a declared attribute name.
    For a single-collection schema this holds of the control parameters
    without the [collection] entry that the path supplies. *)
Theorem control_params_lossless (c : cls) (parsed : pydict) (rp : pyval) (h : heap) :
  (is_multi_collection c = true \/ exists l r, rp = VDict l /\ h !! l = Some r) ->
  exists fwd ctl,
    control_params c parsed rp h = (h, Ret (fwd, ctl))
    /\ let ctl0 := if is_multi_collection c then ctl else delete "collection" ctl in
       fwd ##ₘ ctl0 /\ fwd ∪ ctl0 = parsed
       /\ (forall k, is_Some (ctl0 !! k) -> k ∈ field_names c).
Proof.
  intros Hrp. unfold control_params.
  destruct (partition_params (field_names c) parsed) as [fwd ctlp] eqn:Hp.
  apply partition_params_spec in Hp as [Hin Hout].
  assert (Hparts : fwd ##ₘ ctlp /\ fwd ∪ ctlp = parsed
                   /\ (forall k, is_Some (ctlp !! k) -> k ∈ field_names c)).
  { split; [|split].
    - apply map_disjoint_spec. intros k x y Hx Hy.
      destruct (decide (k ∈ field_names c)) as [Hk|Hk].
      + rewrite (proj1 (Hin k Hk)) in Hx. discriminate.
      + rewrite (proj2 (Hout k Hk)) in Hy. discriminate.
    - apply map_eq. intros k. destruct (decide (k ∈ field_names c)) as [Hk|Hk].
      + rewrite lookup_union_r by exact (proj1 (Hin k Hk)). exact (proj2 (Hin k Hk)).
      + rewrite lookup_union_l by exact (proj2 (Hout k Hk)). exact (proj1 (Hout k Hk)).
    - intros k [v Hv]. destruct (decide (k ∈ field_names c)) as [Hk|Hk]; [exact Hk|].
      rewrite (proj2 (Hout k Hk)) in Hv. discriminate. }
  destruct (is_multi_collection c) eqn:Hm.
  - exists fwd, ctlp. split; [reflexivity|]. exact Hparts.
  - destruct Hrp as [Hrp|(l & r & -> & Hl)]; [discriminate|].
    exists fwd, (<["collection" := dict_get_default r "collection" VNone]> ctlp).
    split; [unfold mbind, M_bind, py_get; simpl; rewrite Hl; reflexivity|].
    cbv zeta. rewrite delete_insert_eq, delete_id; [exact Hparts|].
    apply (proj2 (Hout "collection" (single_collection_has_no_collection_field c Hm))).
Qed.

Lemma control_params_lossless_witness :
  (is_multi_collection LimitSchema = true \/ exists l r,
     VDict l_path = VDict l /\ lambda_heap ∅ !! l = Some r)
  /\ exists fwd ctl,
    control_params LimitSchema
      (<["request_limit" := VInt 5]> (<["filter" := VStr "x"]> ∅)) (VDict l_path) (lambda_heap ∅)
      = (lambda_heap ∅, Ret (fwd, ctl))
    /\ let ctl0 := if is_multi_collection LimitSchema then ctl else delete "collection" ctl in
       fwd ##ₘ ctl0 /\ fwd ∪ ctl0 = <["request_limit" := VInt 5]> (<["filter" := VStr "x"]> ∅)
       /\ (forall k, is_Some (ctl0 !! k) -> k ∈ field_names LimitSchema).
Proof.
  assert (H1 : is_multi_collection LimitSchema = true \/ exists l r,
                 VDict l_path = VDict l /\ lambda_heap ∅ !! l = Some r).
  { right. exists l_path, (<["collection" := VStr "bld-fts-building-4"]> ∅).
    split; [reflexivity | vm_compute; reflexivity]. }
  split; [exact H1|].
  exact (control_params_lossless LimitSchema _ (VDict l_path) (lambda_heap ∅) H1).
Defined.

(** ** Validation errors *)

(** X: when [schema.load] fails on a dict, the error messages are not
    empty and every key is the query-string key of a declared field: one
    that is required and absent, or present with a value its field
    rejects. *)
Theorem validation_errors_keyed_by_wire_names (c : cls) (m : pydict) errs :
  load_pure (schema_fields c) (Some m) = inl errs ->
  errs ≠ []
  /\ forall w e, (w, e) ∈ errs ->
       w ∈ wire_names c
       /\ exists af, af ∈ schema_fields c /\ wire_name af = w
          /\ ((m !! w = None /\ required af.2 = true)
              \/ exists raw, m !! w = Some raw /\ deserialize_field (kind af.2) raw = inl e).
Proof.
  intros H. unfold load_pure, load_fields in H.
  destruct (fold_left (load_step m) (schema_fields c) (∅, [])) as [out errs'] eqn:E.
  destruct errs' as [|e0 errs']; [discriminate|]. injection H as <-.
  split; [discriminate|]. intros w e Hwe.
  pose proof (load_fold_errors_from_fields m (schema_fields c) ∅ [] w e) as Hfrom.
  rewrite E in Hfrom. destruct (Hfrom Hwe) as [Hnil|(af & Haf & Hw & Hcase)]; [set_solver|].
  split; [|exists af; auto].
  unfold wire_names. rewrite <- Hw. apply list_elem_of_In, in_map, list_elem_of_In. exact Haf.
Qed.

Lemma validation_errors_keyed_by_wire_names_witness :
  load_pure (schema_fields GeomSchema) (Some invalid_boolean_query) = inl invalid_boolean_errors
  /\ invalid_boolean_errors ≠ []
  /\ forall w e, (w, e) ∈ invalid_boolean_errors ->
       w ∈ wire_names GeomSchema
       /\ exists af, af ∈ schema_fields GeomSchema /\ wire_name af = w
          /\ ((invalid_boolean_query !! w = None /\ required af.2 = true)
              \/ exists raw, invalid_boolean_query !! w = Some raw
                             /\ deserialize_field (kind af.2) raw = inl e).
Proof.
  assert (H : load_pure (schema_fields GeomSchema) (Some invalid_boolean_query)
              = inl invalid_boolean_errors) by (vm_compute; reflexivity).
  split; [exact H|].
  exact (validation_errors_keyed_by_wire_names GeomSchema invalid_boolean_query _ H).
Defined.

(** ** Integer fields read back decimal numerals *)

Lemma int_digits_all (ds : list ascii) (b : bool) :
  Forall (fun c => is_digit c = true) ds -> (ds ≠ [] \/ b = true) ->
  int_digits ds b = Some (map digit_value ds).
Proof.
  revert b. induction ds as [|c r IH]; intros b Hall Hne.
  - destruct Hne as [Hne | ->]; [contradiction|reflexivity].
  - inversion Hall as [|? ? Hc Hr]; subst. cbn [int_digits]. rewrite Hc.
    rewrite (IH true Hr (or_intror eq_refl)). reflexivity.
Qed.

Lemma pretty_N_char_digit (d : N) : is_digit (pretty_N_char d) = true.
Proof. unfold pretty_N_char. repeat case_match; reflexivity. Qed.

Lemma pretty_N_char_value (d : N) : (d < 10)%N -> digit_value (pretty_N_char d) = Z.of_N d.
Proof.
  intros Hd.
  assert (d = 0 \/ d = 1 \/ d = 2 \/ d = 3 \/ d = 4 \/ d = 5 \/ d = 6 \/ d = 7 \/ d = 8 \/ d = 9)%N
    as Hcases by lia.
  repeat (destruct Hcases as [->|Hcases]; [reflexivity|]). subst. reflexivity.
Qed.

Lemma digit_not_space (c : ascii) : is_digit c = true -> is_py_space c = false.
Proof.
  unfold is_digit, is_py_space. intros H. apply andb_prop in H as [H1 H2].
  apply Nat.leb_le in H1, H2. apply not_true_iff_false. intros H.
  rewrite !orb_true_iff, !andb_true_iff, Nat.eqb_eq, !Nat.leb_le in H. lia.
Qed.

(** [pretty_N_go x s] puts the decimal digits of [x] in front of [s]. *)
Lemma pretty_N_go_digits (x : N) (s : string) :
  exists ds, list_ascii_of_string (pretty_N_go x s) = (ds ++ list_ascii_of_string s)%list
    /\ Forall (fun c => is_digit c = true) ds
    /\ fold_left (fun acc d => 10 * acc + d)%Z (map digit_value ds) 0%Z = Z.of_N x
    /\ (forall k, (x < 10 ^ k)%N -> (N.of_nat (length ds) <= k)%N)
    /\ ((0 < x)%N -> ds ≠ []).
Proof.
  revert s. induction (N.lt_wf_0 x) as [x _ IH]; intros s.
  destruct (decide (x = 0)%N) as [->|Hx].
  - exists []. rewrite pretty_N_go_0. split; [reflexivity|]. split; [constructor|].
    split; [reflexivity|]. split; [intros k _; apply N.le_0_l|]. intros; lia.
  - rewrite pretty_N_go_step by lia.
    destruct (IH (x / 10)%N (N.div_lt x 10 ltac:(lia) ltac:(lia))
                (String (pretty_N_char (x mod 10)) s))
      as (ds & Hl & Hall & Hv & Hlen & _).
    exists (ds ++ [pretty_N_char (x mod 10)])%list. split; [|split; [|split; [|split]]].
    + rewrite Hl, <- app_assoc. reflexivity.
    + apply Forall_app. split; [exact Hall|]. constructor; [apply pretty_N_char_digit|constructor].
    + rewrite map_app, fold_left_app, Hv. cbn [map fold_left].
      rewrite pretty_N_char_value by (apply N.mod_lt; lia).
      pose proof (N.div_mod x 10 ltac:(lia)) as Hdm. lia.
    + intros k Hk. rewrite length_app. cbn [length].
      destruct (N.zero_or_succ k) as [->|[k' ->]]; [rewrite N.pow_0_r in Hk; lia|].
      rewrite N.pow_succ_r' in Hk.
      assert (Hq : (x / 10 < 10 ^ k')%N) by (apply N.Div0.div_lt_upper_bound; lia).
      specialize (Hlen k' Hq). lia.
    + intros _. destruct ds; discriminate.
Qed.

Lemma py_strip_noop (cs : list ascii) :
  match cs with c :: _ => is_py_space c = false | [] => True end ->
  match rev cs with c :: _ => is_py_space c = false | [] => True end ->
  py_strip cs = cs.
Proof.
  intros H1 H2. unfold py_strip. destruct cs as [|c r]; [reflexivity|].
  cbn [strip_left]. rewrite H1.
  destruct (rev (c :: r)) as [|c' r'] eqn:E;
    [apply (f_equal (@length ascii)) in E; rewrite length_rev in E; discriminate|].
  cbn [strip_left]. rewrite H2, <- E, rev_involutive. reflexivity.
Qed.

Lemma digits_last_not_space (ds : list ascii) :
  Forall (fun c => is_digit c = true) ds ->
  match rev ds with c :: _ => is_py_space c = false | [] => True end.
Proof.
  intros Hall. apply Forall_rev in Hall. destruct (rev ds) as [|c r]; [exact I|].
  inversion Hall; subst. apply digit_not_space. assumption.
Qed.

(** X: an [Integer] field ([request-limit], [recent-update-days]) reads
    back the decimal numeral [str(z)] of every integer [z] with at most
    4300 digits (Python's default limit) as [z] itself. *)
Theorem integer_field_reads_decimal (z : Z) :
  (Z.abs z < 10 ^ 4300)%Z ->
  py_int_of_string (pretty z) = Some z
  /\ deserialize_field FInteger (VStr (pretty z)) = inr (VInt z).
Proof.
  intros Hz.
  assert (Hparse : py_int_of_string (pretty z) = Some z).
  { destruct z as [|p|p]; [reflexivity| |].
    - change (pretty (Z.pos p)) with (pretty (N.pos p)).
      unfold pretty, pretty_N. rewrite decide_False by discriminate.
      destruct (pretty_N_go_digits (N.pos p) "") as (ds & Hl & Hall & Hv & Hlen & Hne).
      assert (Hk : (N.of_nat (length ds) <= 4300)%N).
      { apply Hlen. apply N2Z.inj_lt. rewrite N2Z.inj_pow. exact Hz. }
      clear Hz Hlen. rewrite app_nil_r in Hl. specialize (Hne ltac:(lia)).
      unfold py_int_of_string. rewrite Hl.
      destruct ds as [|c r]; [contradiction|].
      rewrite py_strip_noop.
      2: { inversion Hall; subst. apply digit_not_space. assumption. }
      2: { apply digits_last_not_space. exact Hall. }
      inversion Hall as [|? ? Hc Hr]; subst.
      assert (Hm : Ascii.eqb c "-"%char = false)
        by (apply Ascii.eqb_neq; intros ->; discriminate).
      assert (Hp : Ascii.eqb c "+"%char = false)
        by (apply Ascii.eqb_neq; intros ->; discriminate).
      rewrite Hm, Hp, Hc.
      rewrite (int_digits_all (c :: r) false Hall (or_introl Hne)).
      rewrite length_map.
      assert (Hlt : (int_max_str_digits <? length (c :: r))%nat = false)
        by (apply Nat.ltb_ge, Nat.compare_le_iff; rewrite Nat2N.inj_compare; exact Hk).
      rewrite Hlt, Hv. reflexivity.
    - change (pretty (Z.neg p)) with ("-" +:+ pretty (N.pos p)).
      unfold pretty, pretty_N. rewrite decide_False by discriminate.
      destruct (pretty_N_go_digits (N.pos p) "") as (ds & Hl & Hall & Hv & Hlen & Hne).
      assert (Hk : (N.of_nat (length ds) <= 4300)%N).
      { apply Hlen. apply N2Z.inj_lt. rewrite N2Z.inj_pow. exact Hz. }
      clear Hz Hlen. rewrite app_nil_r in Hl. specialize (Hne ltac:(lia)).
      unfold py_int_of_string.
      change (list_ascii_of_string ("-" +:+ pretty_N_go (N.pos p) ""))
        with ("-"%char :: list_ascii_of_string (pretty_N_go (N.pos p) "")).
      rewrite Hl. rewrite py_strip_noop; [| reflexivity |].
      2: { cbn [rev]. destruct ds as [|c r]; [contradiction|].
           pose proof (digits_last_not_space (c :: r) Hall) as Hlast.
           destruct (rev (c :: r)) as [|c' r'] eqn:E;
             [apply (f_equal (@length ascii)) in E; rewrite length_rev in E; discriminate|].
           exact Hlast. }
      rewrite Ascii.eqb_refl. cbv beta iota.
      destruct ds as [|c r]; [contradiction|].
      inversion Hall as [|? ? Hc Hr]; subst. rewrite Hc.
      rewrite (int_digits_all (c :: r) false Hall (or_introl Hne)).
      rewrite length_map.
      assert (Hlt : (int_max_str_digits <? length (c :: r))%nat = false)
        by (apply Nat.ltb_ge, Nat.compare_le_iff; rewrite Nat2N.inj_compare; exact Hk).
      rewrite Hlt, Hv. reflexivity. }
  split; [exact Hparse|]. cbn. rewrite Hparse. reflexivity.
Qed.

Lemma integer_field_reads_decimal_witness :
  (Z.abs (-28) < 10 ^ 4300)%Z
  /\ py_int_of_string (pretty (-28)%Z) = Some (-28)%Z
  /\ deserialize_field FInteger (VStr (pretty (-28)%Z)) = inr (VInt (-28)).
Proof.
  assert (H : (Z.abs (-28) < 10 ^ 4300)%Z) by (apply Z.ltb_lt; vm_compute; reflexivity).
  split; [exact H|]. exact (integer_field_reads_decimal (-28) H).
Defined.

(** ** The [{attr}] substitution *)

Lemma sum_map_app_nil {E} (r : sum E (list ascii)) : sum_map (app []) r = r.
Proof. destruct r; reflexivity. Qed.

Lemma format_scan_plain (cs rest : list ascii) (a : string) :
  open_brace ∉ cs -> close_brace ∉ cs ->
  format_scan (cs ++ rest) None a = sum_map (app cs) (format_scan rest None a).
Proof.
  induction cs as [|c cs IH]; intros Ho Hc.
  - rewrite sum_map_app_nil. reflexivity.
  - apply not_elem_of_cons in Ho as [Ho1 Ho2], Hc as [Hc1 Hc2].
    cbn [app format_scan].
    rewrite (proj2 (Ascii.eqb_neq c open_brace) ltac:(congruence)).
    rewrite (proj2 (Ascii.eqb_neq c close_brace) ltac:(congruence)).
    rewrite IH by assumption. destruct (format_scan rest None a); reflexivity.
Qed.

Lemma format_scan_attr (rest : list ascii) (a : string) :
  format_scan (list_ascii_of_string "{attr}" ++ rest) None a
  = sum_map (app (list_ascii_of_string a)) (format_scan rest None a).
Proof. reflexivity. Qed.

Lemma format_scan_segments (segs : list string) (a : string) :
  Forall brace_free segs ->
  format_scan (list_ascii_of_string (str_join "{attr}" segs)) None a
  = inr (list_ascii_of_string (str_join a segs)).
Proof.
  induction segs as [|s segs IH]; intros Hall; [reflexivity|].
  inversion Hall as [|? ? [Ho Hc] Hr]; subst.
  destruct segs as [|s' segs].
  - cbn [str_join]. rewrite <- (app_nil_r (list_ascii_of_string s)) at 1.
    rewrite format_scan_plain by assumption. cbn. rewrite app_nil_r. reflexivity.
  - change (str_join "{attr}" (s :: s' :: segs))
      with (s ++ "{attr}" ++ str_join "{attr}" (s' :: segs)).
    change (str_join a (s :: s' :: segs)) with (s ++ a ++ str_join a (s' :: segs)).
    rewrite !list_ascii_of_string_app.
    rewrite format_scan_plain by assumption. rewrite format_scan_attr.
    rewrite (IH Hr). reflexivity.
Qed.

(** X: when a downstream answer marks an error ([errorSource] truthy) and
    its [description] is literal text with [{attr}] placeholders (no other
    braces), every placeholder is replaced by the schema's attribute list
    and the literal text is kept; with [errorSource] falsy the answer is
    returned unchanged. The heap is untouched either way. *)
Theorem fill_attr_placeholder_substitutes (c : cls) (resp : pydict) (segs : list string) (h : heap) :
  Forall brace_free segs ->
  resp !! "description" = Some (VStr (str_join "{attr}" segs)) ->
  fill_attr_placeholder c resp h
  = (h, Ret (if truthy (dict_get_default resp "errorSource" VNone)
             then <["description" := VStr (str_join (attr_list c) segs)]> resp
             else resp)).
Proof.
  intros Hall Hd. unfold fill_attr_placeholder.
  destruct (truthy (dict_get_default resp "errorSource" VNone)); [|reflexivity].
  unfold dict_get_default at 1. rewrite Hd. unfold py_format_attr.
  rewrite format_scan_segments by exact Hall. cbn [sum_map].
  rewrite string_of_list_ascii_of_string. reflexivity.
Qed.

Lemma fill_attr_placeholder_substitutes_witness :
  Forall brace_free attr_witness_segs
  /\ attr_witness_resp !! "description" = Some (VStr (str_join "{attr}" attr_witness_segs))
  /\ fill_attr_placeholder GeomSchema attr_witness_resp ∅
     = (∅, Ret (if truthy (dict_get_default attr_witness_resp "errorSource" VNone)
                then <["description" := VStr (str_join (attr_list GeomSchema) attr_witness_segs)]>
                       attr_witness_resp
                else attr_witness_resp)).
Proof.
  assert (Hb : Forall brace_free attr_witness_segs).
  { apply Forall_forall. intros s Hs. apply list_elem_of_In in Hs.
    repeat (destruct Hs as [<-|Hs];
            [split; apply (bool_decide_unpack _); vm_compute; reflexivity|]).
    contradiction. }
  assert (Hd : attr_witness_resp !! "description"
               = Some (VStr (str_join "{attr}" attr_witness_segs))) by reflexivity.
  split; [exact Hb|]. split; [exact Hd|].
  exact (fill_attr_placeholder_substitutes GeomSchema attr_witness_resp attr_witness_segs ∅ Hb Hd).
Defined.

(** ** Outcomes of the request handlers *)

Lemma returns_only_bind {A B} (P : B -> Prop) (m : M A) (k : A -> M B) :
  (forall a, returns_only P (k a)) -> returns_only P (m ≫= k).
Proof.
  intros Hk h. unfold mbind, M_bind. destruct (m h) as [h1 [a|e]]; [apply Hk|exact I].
Qed.

Lemma returns_only_ret {A} (P : A -> Prop) (a : A) : P a -> returns_only P (mret a).
Proof. intros Ha h. exact Ha. Qed.

(** X: the [construct_response] of [Azure/function_app.py] always returns
    an [HttpResponse], whatever the request, the schema and the downstream
    function do. A non-GET request gets the 405 response and nothing else
    happens; for a GET request the status is 200, 400 or 500, and every
    non-200 response carries the [handle_error]-shaped body with that
    code. *)
Theorem azure_construct_response_statuses (log_request_details : bool)
    (req : Azure_function_app.HttpRequest) (c : cls) (func_ : downstream) (h : heap) :
  exists h' r,
    Azure_function_app.construct_response log_request_details req c func_ h = (h', Ret r)
    /\ (Azure_function_app.method req ≠ "GET" ->
          h' = h /\ r = Azure_function_app.mk_HttpResponse (error_body 405 method_not_allowed) 405)
    /\ (Azure_function_app.method req = "GET" ->
          Azure_function_app.resp_status r ∈ [200; 400; 500]%Z
          /\ (Azure_function_app.resp_status r ≠ 200%Z ->
                exists d, Azure_function_app.resp_body r
                          = error_body (Azure_function_app.resp_status r) d)).
Proof.
  set (P := fun r : Azure_function_app.HttpResponse =>
              Azure_function_app.resp_status r ∈ [200; 400; 500]%Z
              /\ (Azure_function_app.resp_status r ≠ 200%Z ->
                    exists d, Azure_function_app.resp_body r
                              = error_body (Azure_function_app.resp_status r) d)).
  unfold Azure_function_app.construct_response, try_except.
  destruct (String.eqb (Azure_function_app.method req) "GET") eqn:Em.
  - apply String.eqb_eq in Em. cbn [negb].
    match goal with |- context [match ?b h with _ => _ end] => set (body := b) end.
    assert (Hbody : returns_only P body).
    { apply returns_only_bind. intros params. apply returns_only_bind. intros [errs|parsed].
      - apply returns_only_ret. split; [set_solver|]. intros _. eexists. reflexivity.
      - apply returns_only_bind. intros route_params. apply returns_only_bind. intros [fwd ctl].
        apply returns_only_bind. intros data. apply returns_only_bind. intros data'.
        apply returns_only_ret. split; [set_solver|]. intros Hne. contradiction. }
    specialize (Hbody h). destruct (body h) as [h1 [r|e]].
    + exists h1, r. split; [reflexivity|]. split; [intros Hne; contradiction|]. intros _. exact Hbody.
    + eexists _, _. split; [reflexivity|]. split; [intros Hne; contradiction|]. intros _.
      split; [set_solver|]. intros _. eexists. reflexivity.
  - apply String.eqb_neq in Em. cbn [negb].
    eexists _, _. split; [reflexivity|]. split; [intros _; split; reflexivity|].
    intros Hg. contradiction.
Qed.

Lemma error_body_has_no_headers (code : Z) (d : string) :
  delete "code" (error_body code d) !! "headers" = None.
Proof.
  unfold error_body. rewrite lookup_delete_ne by discriminate.
  rewrite !lookup_insert_ne by discriminate. apply lookup_empty.
Qed.

(** The [except] branch of [aws_process_request] on any exception. *)
Ltac aws_error_path :=
  unfold mbind, M_bind, handle_error; cbn [String.eqb negb];
  unfold mret, M_ret, aws_serialise_response; rewrite error_body_has_no_headers; reflexivity.

(** X: [aws_process_request] either answers with the serialised response of
    the construct function, which must carry a [headers] entry ([statusCode]
    is its [code], 200 by default, and the body is the response without
    [code]), or raises [KeyError('headers')]: whatever goes wrong, the 500
    error body it builds is never returned. *)
Theorem aws_process_request_outcomes (event : pyval) (f : request -> M pydict) (h : heap) :
  match aws_process_request event f h with
  | (h', Ret r) =>
      exists h1 req resp hd,
        aws_serialised_request event h = (h1, Ret req) /\ f req h1 = (h', Ret resp)
        /\ resp !! "headers" = Some hd
        /\ r = mk_aws_response false (dict_get_default resp "code" (VInt 200)) hd (delete "code" resp)
  | (_, Raise e) => e = mk_exn "KeyError" (repr_str "headers")
  end.
Proof.
  unfold aws_process_request, try_except. unfold mbind at 1 2, M_bind at 1 2.
  destruct (aws_serialised_request event h) as [h1 [req|e]] eqn:E1;
    [|aws_error_path].
  destruct (f req h1) as [h2 [resp|e]] eqn:E2;
    [|aws_error_path].
  unfold aws_serialise_response at 1.
  destruct (delete "code" resp !! "headers") as [hd|] eqn:Eh.
  - cbn. exists h1, req, resp, hd. rewrite lookup_delete_ne in Eh by discriminate.
    repeat split; done.
  - unfold raise. cbv beta iota. aws_error_path.
Qed.

(** ** The AWS request serialiser allocates but never writes *)

Lemma keeps_objects_bind {A B} (m : M A) (k : A -> M B) :
  keeps_objects m -> (forall a, keeps_objects (k a)) -> keeps_objects (m ≫= k).
Proof.
  intros Hm Hk h l v Hl. unfold mbind, M_bind.
  specialize (Hm h l v Hl). destruct (m h) as [h1 [a|e]]; [apply Hk|]; exact Hm.
Qed.

Lemma keeps_objects_ret {A} (a : A) : keeps_objects (mret a).
Proof. intros h l v Hl. exact Hl. Qed.

Lemma keeps_objects_py_get (d : pyval) (k : string) (def : pyval) : keeps_objects (py_get d k def).
Proof.
  intros h l v Hl. unfold py_get. destruct d as [| | | | |l0]; try exact Hl.
  destruct (h !! l0); exact Hl.
Qed.

Lemma keeps_objects_py_new_dict (m : pydict) : keeps_objects (py_new_dict m).
Proof.
  intros h l v Hl. unfold py_new_dict. cbn [fst]. rewrite lookup_insert_ne; [exact Hl|].
  intros Heq. apply (is_fresh (dom h)). rewrite Heq. apply elem_of_dom. eauto.
Qed.

Lemma keeps_objects_py_str_add (a b : pyval) : keeps_objects (py_str_add a b).
Proof. intros h l v Hl. unfold py_str_add. destruct a, b; exact Hl. Qed.

Create HintDb keeps.
#[local] Hint Resolve keeps_objects_bind keeps_objects_ret keeps_objects_py_get
  keeps_objects_py_new_dict keeps_objects_py_str_add : keeps.

Lemma bind_ret_inv {A B} (m : M A) (k : A -> M B) (h h' : heap) (b : B) :
  (m ≫= k) h = (h', Ret b) -> exists h1 a, m h = (h1, Ret a) /\ k a h1 = (h', Ret b).
Proof.
  unfold mbind, M_bind. destruct (m h) as [h1 [a|e]]; [eauto|discriminate].
Qed.

Lemma py_get_ret_inv (d : pyval) (k : string) (def : pyval) (h h' : heap) (v : pyval) :
  py_get d k def h = (h', Ret v) ->
  h' = h /\ exists l m, d = VDict l /\ h !! l = Some m /\ v = dict_get_default m k def.
Proof.
  unfold py_get. destruct d; try discriminate. destruct (h !! l) as [m|] eqn:Hl; [|discriminate].
  intros [= <- <-]. split; [done|]. eauto.
Qed.

Lemma py_new_dict_run (m : pydict) (h : heap) :
  py_new_dict m h = (<[fresh (dom h) := m]> h, Ret (VDict (fresh (dom h)))).
Proof. reflexivity. Qed.

Lemma fresh_not_in_heap (h : heap) : h !! fresh (dom h) = None.
Proof. apply not_elem_of_dom, is_fresh. Qed.

(** X: building the [AWSSerialisedRequest] only allocates the fresh [{}]
    defaults: every object that existed before keeps its contents, raise
    or not. On success the event is a dict; the request's [params] is the
    event's own [queryStringParameters] object when the key is present (an
    alias, not a copy), and otherwise a new empty dict; [route_params] is
    [event.get('pathParameters')]. *)
Theorem aws_serialised_request_keeps_objects (event : pyval) (h : heap) :
  match aws_serialised_request event h with
  | (h', o) =>
      (forall l m, h !! l = Some m -> h' !! l = Some m)
      /\ (forall req, o = Ret req ->
            exists le me, event = VDict le /\ h !! le = Some me
              /\ req_route_params req = dict_get_default me "pathParameters" VNone
              /\ (me !! "queryStringParameters" = Some (req_params req)
                  \/ (me !! "queryStringParameters" = None
                      /\ exists l, req_params req = VDict l /\ h !! l = None /\ h' !! l = Some ∅)))
  end.
Proof.
  assert (Hkeep : keeps_objects (aws_serialised_request event)).
  { unfold aws_serialised_request. repeat (apply keeps_objects_bind; [eauto with keeps|intros ?]).
    apply keeps_objects_ret. }
  destruct (aws_serialised_request event h) as [h' o] eqn:E.
  split; [intros l m Hl; pose proof (Hkeep h l m Hl) as Hk; rewrite E in Hk; exact Hk|].
  intros req ->. unfold aws_serialised_request in E.
  apply bind_ret_inv in E as (h1 & http & E1 & E).
  apply py_get_ret_inv in E1 as (-> & le & me & -> & Hle & ->).
  apply bind_ret_inv in E as (h2 & method & E2 & E).
  apply py_get_ret_inv in E2 as (-> & _).
  apply bind_ret_inv in E as (h3 & d0 & E3 & E). rewrite py_new_dict_run in E3.
  injection E3 as <- <-.
  apply bind_ret_inv in E as (h4 & req_context & E4 & E).
  apply py_get_ret_inv in E4 as (-> & _).
  apply bind_ret_inv in E as (h5 & domain & E5 & E).
  apply py_get_ret_inv in E5 as (-> & _).
  apply bind_ret_inv in E as (h6 & path & E6 & E).
  apply py_get_ret_inv in E6 as (-> & _).
  apply bind_ret_inv in E as (h7 & url & E7 & E).
  assert (Hh7 : h7 = <[fresh (dom h) := ∅]> h).
  { unfold py_str_add in E7. destruct domain, path; try discriminate. injection E7 as <- _. done. }
  subst h7.
  set (h0 := <[fresh (dom h) := ∅]> h) in *.
  assert (Hme : h0 !! le = Some me).
  { unfold h0. rewrite lookup_insert_ne; [exact Hle|]. intros Heq.
    rewrite <- Heq, fresh_not_in_heap in Hle. discriminate. }
  apply bind_ret_inv in E as (h8 & d1 & E8 & E). rewrite py_new_dict_run in E8.
  injection E8 as <- <-.
  set (l1 := fresh (dom h0)) in *.
  set (h1' := <[l1 := ∅]> h0) in *.
  apply bind_ret_inv in E as (h9 & params & E9 & E).
  apply py_get_ret_inv in E9 as (-> & l9 & m9 & Hl9 & Hm9 & ->).
  injection Hl9 as <-.
  assert (Hm9' : m9 = me).
  { unfold h1' in Hm9. rewrite lookup_insert_ne in Hm9; [congruence|]. intros Heq.
    rewrite <- Heq in Hme. unfold l1 in Hme. rewrite fresh_not_in_heap in Hme. discriminate. }
  subst m9.
  assert (Hrest : keeps_objects
    (route_params ← py_get (VDict le) "pathParameters" VNone;
     d2 ← py_new_dict ∅;
     headers ← py_get (VDict le) "headers" d2;
     mret (mk_request method url (dict_get_default me "queryStringParameters" (VDict l1))
             route_params headers)))
    by (repeat (apply keeps_objects_bind; [eauto with keeps|intros ?]); apply keeps_objects_ret).
  pose proof (Hrest h1' l1 ∅ ltac:(apply lookup_insert_eq)) as Hl1. rewrite E in Hl1.
  apply bind_ret_inv in E as (h10 & route_params & E10 & E).
  apply py_get_ret_inv in E10 as (-> & l10 & m10 & Hl10 & Hm10 & ->).
  injection Hl10 as <-.
  assert (Hm10' : m10 = me) by congruence. subst m10.
  apply bind_ret_inv in E as (h11 & d2 & E11 & E). rewrite py_new_dict_run in E11.
  injection E11 as <- <-.
  apply bind_ret_inv in E as (h12 & headers & E12 & E).
  apply py_get_ret_inv in E12 as (-> & _).
  injection E as <- <-.
  exists le, me. split; [done|]. split; [exact Hle|]. split; [reflexivity|].
  cbn [req_params]. unfold dict_get_default.
  destruct (me !! "queryStringParameters") as [v|] eqn:Hq; [left; reflexivity|right].
  split; [reflexivity|]. exists l1. split; [reflexivity|]. split; [|exact Hl1].
  unfold l1, h0. destruct (h !! fresh (dom (<[fresh (dom h) := ∅]> h))) eqn:Hx; [|reflexivity].
  exfalso. apply (is_fresh (dom (<[fresh (dom h) := ∅]> h))).
  apply (subseteq_dom h); [apply insert_subseteq, fresh_not_in_heap|].
  apply elem_of_dom. exists g. exact Hx.
Qed.

(** ** Where [schema.load] puts a declared field's value *)


(** X: after a successful [schema.load], a declared field given in the
    query under its wire key with a valid raw value is found under its
    attribute name, holding the converted value -- except when the
    attribute name is no wire key and the query also holds the attribute
    name itself as a key: that raw value, copied by [unknown = INCLUDE],
    wins, unvalidated. *)
Theorem loaded_field_under_attribute_name (c : cls) (m out : pydict)
    (af : string * field) (raw x : pyval) :
  load_pure (schema_fields c) (Some m) = inr out ->
  af ∈ schema_fields c -> m !! wire_name af = Some raw ->
  deserialize_field (kind af.2) raw = inr x ->
  out !! af.1 = Some (if bool_decide (af.1 ∈ wire_names c) then x else dict_get_default m af.1 x).
Proof.
  intros H Haf Hraw Hx. destruct af as [a f]. cbn [fst snd] in *.
  pose proof (schema_field_names_nodup c) as Hnd.
  case_bool_decide as Hw.
  - exact (load_pure_declared_value _ m out a f raw x Hnd Haf Hw Hraw Hx H).
  - unfold load_pure in H. destruct (load_fields (schema_fields c) m) as [o errs] eqn:E.
    destruct errs; [|discriminate]. injection H as <-.
    unfold dict_get_default. destruct (m !! a) as [v|] eqn:Ha.
    + apply lookup_union_Some_l. apply map_lookup_filter_Some_2; [exact Ha|]. exact Hw.
    + rewrite lookup_union_r.
      * unfold load_fields in E. pose proof (load_fold_value m _ ∅ [] a f raw x Hnd Haf Hraw Hx) as Hv.
        rewrite E in Hv. exact Hv.
      * apply map_lookup_filter_None_2. left. exact Ha.
Qed.

Lemma loaded_field_under_attribute_name_witness :
  load_pure (schema_fields LimitSchema) (Some shadowed_limit_query) = inr shadowed_limit_out
  /\ ("request_limit", mk_field (Some "request-limit") FInteger false) ∈ schema_fields LimitSchema
  /\ shadowed_limit_query !! "request-limit" = Some (VStr "5")
  /\ deserialize_field FInteger (VStr "5") = inr (VInt 5)
  /\ shadowed_limit_out !! "request_limit" = Some (VStr "abc").
Proof.
  assert (H1 : load_pure (schema_fields LimitSchema) (Some shadowed_limit_query)
               = inr shadowed_limit_out) by (vm_compute; reflexivity).
  assert (H2 : ("request_limit", mk_field (Some "request-limit") FInteger false)
               ∈ schema_fields LimitSchema)
    by (apply list_elem_of_In; vm_compute; repeat (first [left; reflexivity | right])).
  assert (H3 : shadowed_limit_query !! "request-limit" = Some (VStr "5")) by reflexivity.
  assert (H4 : deserialize_field FInteger (VStr "5") = inr (VInt 5)) by reflexivity.
  pose proof (loaded_field_under_attribute_name LimitSchema shadowed_limit_query shadowed_limit_out
                _ (VStr "5") (VInt 5) H1 H2 H3 H4) as H.
  split; [exact H1|]. split; [exact H2|]. split; [exact H3|]. split; [exact H4|].
  exact H.
Defined.

Lemma returns_only_bind_post {A B} (Q : A -> Prop) (P : B -> Prop) (m : M A) (k : A -> M B) :
  returns_only Q m -> (forall a, Q a -> returns_only P (k a)) -> returns_only P (m ≫= k).
Proof.
  intros Hm Hk h. specialize (Hm h). unfold mbind, M_bind.
  destruct (m h) as [h1 [a|e]]; [apply Hk; exact Hm|exact I].
Qed.

Lemma handle_error_returns (error : option exn) (description : option string) (code : Z) :
  returns_only (fun d => exists descr, d = error_body code descr) (handle_error error description code).
Proof.
  intros h. unfold handle_error.
  destruct (negb (String.eqb _ "")); [eexists; reflexivity|].
  destruct error; [eexists; reflexivity|exact I].
Qed.

Lemma construct_response_is_try (req : http_request) (c : cls) (func_ : downstream) :
  construct_response req c func_
  = try_except (construct_response_try req c func_)
      (fun e => _ ← handle_error (Some e) None 500; mret AzNone).
Proof. reflexivity. Qed.

(** X: the [construct_response] of [function_app.py] never raises. A
    non-GET request gets the bare 405 error dict (not an [HttpResponse]);
    any other bare dict it returns is a [handle_error] body with code 405
    or 400; an [HttpResponse] never keeps [telemetryData] in its body and
    its status is the body's [code] (200 when absent).  The result is
    [None] exactly when the body of the [try] raised an exception:
    [handle_error] is then called and its result dropped, and the state
    is the one left by the failed body. *)
Theorem construct_response_outcomes (req : http_request) (c : cls) (func_ : downstream) (h : heap) :
  exists h' r, construct_response req c func_ h = (h', Ret r)
    /\ (az_method req ≠ "GET" -> r = AzDict (error_body 405 method_not_allowed))
    /\ (r = AzNone <-> exists e, construct_response_try req c func_ h = (h', Raise e))
    /\ match r with
       | AzNone => True
       | AzDict d => exists code descr, d = error_body code descr /\ code ∈ [405; 400]%Z
       | AzHttp body status =>
           body !! "telemetryData" = None /\ status = dict_get_default body "code" (VInt 200)
       end.
Proof.
  set (P := fun r => match r with
       | AzNone => False
       | AzDict d => exists code descr, d = error_body code descr /\ code ∈ [405; 400]%Z
       | AzHttp body status =>
           body !! "telemetryData" = None /\ status = dict_get_default body "code" (VInt 200)
       end).
  rewrite construct_response_is_try.
  assert (Hbody : returns_only P (construct_response_try req c func_)).
  { apply returns_only_bind. intros data.
    destruct (negb (is_str (req_method data) "GET")).
    - apply (returns_only_bind_post _ _ _ _ (handle_error_returns _ _ _)).
      intros d [descr ->]. apply returns_only_ret. exists 405%Z, descr. split; [done|set_solver].
    - apply returns_only_bind. intros [errs|parsed].
      + apply (returns_only_bind_post _ _ _ _ (handle_error_returns _ _ _)).
        intros d [descr ->]. apply returns_only_ret. exists 400%Z, descr. split; [done|set_solver].
      + apply returns_only_bind. intros [fwd ctl]. apply returns_only_bind. intros resp.
        apply returns_only_bind. intros resp'. apply returns_only_ret.
        split; [apply lookup_delete_eq|reflexivity]. }
  assert (Hget : az_method req ≠ "GET" ->
                 construct_response_try req c func_ h
                 = ((get_request_data req h).1, Ret (AzDict (error_body 405 method_not_allowed)))).
  { intros Hne. unfold construct_response_try, get_request_data, mbind, M_bind, py_new_dict, mret, M_ret.
    cbn [fst snd req_method is_str].
    rewrite (proj2 (String.eqb_neq _ _) Hne). reflexivity. }
  specialize (Hbody h). unfold try_except.
  destruct (construct_response_try req c func_ h) as [h1 [r|e]] eqn:Eb; cbn [snd] in Hbody.
  - exists h1, r. split; [reflexivity|]. split; [|split].
    + intros Hne. specialize (Hget Hne). congruence.
    + split; [intros ->; contradiction|intros [e He]; discriminate].
    + destruct r; done.
  - unfold mbind at 1, M_bind at 1, handle_error. cbn [String.eqb negb].
    eexists _, _. split; [reflexivity|]. split; [|split; [|exact I]].
    + intros Hne. specialize (Hget Hne). discriminate.
    + split; [intros _; exists e; reflexivity|reflexivity].
Qed.
